(** * YCSB-runner: the runner configuration reader (runner/config.py)

    A shallow embedding of [RunnerConfig] and of the parts of Python's
    [str] and [configparser] that it calls, followed by the properties of
    the configuration reader.

    Layout:
    - [Py]: the [str] methods and the [int()] conversion the code uses,
      on strings of code points below 256;
    - [configparser]: what a [ConfigParser] holds after [read], and its
      [sections], [get], [getint], [getboolean], with the interpolation
      of values that [get] performs;
    - [Runner]: [RunnerConfig] itself, parametric in the three names that
      [constants.py] provides ([SUPPORTED_DBS], [DEFAULT_TABLENAME],
      [RE_DBNAME_LABEL]);
    - [Registry]: an instance of those three names, for running the code
      on concrete configuration files. *)

From Stdlib Require Import ZArith Ascii String List.
From stdpp Require Import base option list strings gmap.

Local Open Scope string_scope.

(** ** Python strings *)

Module Py.

(** A character of a string stands for the code point of its number, so
    that a string here is a Python string of code points below 256
    (ASCII and the Latin-1 supplement). The methods below are Python's on
    such strings; a code point from 256 on has no counterpart here. *)

Definition in_range (lo hi : nat) (c : ascii) : bool :=
  let n := nat_of_ascii c in Nat.leb lo n && Nat.leb n hi.

Definition is_code (n : nat) (c : ascii) : bool :=
  Nat.eqb (nat_of_ascii c) n.

(** The letters with a lower-case form: [A] to [Z], and U+00C0 to U+00DE
    but for the multiplication sign U+00D7; the lower-case form is 32
    further. *)
Definition lower_char (c : ascii) : ascii :=
  if in_range 65 90 c || (in_range 192 222 c && negb (is_code 215 c))
  then ascii_of_nat (nat_of_ascii c + 32) else c.

(** [s.lower()] *)
Fixpoint lower (s : string) : string :=
  match s with
  | EmptyString => EmptyString
  | String c s' => String (lower_char c) (lower s')
  end.

(** [c.isspace()]: tab, newline, vertical tab, form feed, carriage
    return, the four separators 28..31, the blank, the next-line control
    U+0085 and the no-break space U+00A0. *)
Definition isspace (c : ascii) : bool :=
  in_range 9 13 c || in_range 28 32 c || is_code 133 c || is_code 160 c.

Fixpoint lstrip (s : string) : string :=
  match s with
  | EmptyString => EmptyString
  | String c s' => if isspace c then lstrip s' else s
  end.

Fixpoint rstrip (s : string) : string :=
  match s with
  | EmptyString => EmptyString
  | String c s' =>
      match rstrip s' with
      | EmptyString => if isspace c then EmptyString else String c EmptyString
      | r => String c r
      end
  end.

(** [s.strip()] *)
Definition strip (s : string) : string := rstrip (lstrip s).

(** [s.split(sep)] for a one-character separator: never the empty list. *)
Fixpoint split (sep : ascii) (s : string) : list string :=
  match s with
  | EmptyString => [EmptyString]
  | String c s' =>
      if Ascii.eqb c sep then EmptyString :: split sep s'
      else match split sep s' with
           | [] => [String c EmptyString]
           | p :: ps => String c p :: ps
           end
  end.

(** [sep.join(l)] *)
Definition join (sep : string) (l : list string) : string :=
  String.concat sep l.

(** [x in l] *)
Definition contains (x : string) (l : list string) : bool :=
  existsb (String.eqb x) l.

(** [c in s] for a character *)
Fixpoint has_char (c : ascii) (s : string) : bool :=
  match s with
  | EmptyString => false
  | String d s' => Ascii.eqb c d || has_char c s'
  end.

Definition digit (c : ascii) : option Z :=
  if in_range 48 57 c then Some (Z.of_nat (nat_of_ascii c - 48)) else None.

(** The digits of an integer literal: decimal digits, a single
    underscore allowed between two digits. [seen] tells whether the
    previous character was a digit. *)
Fixpoint int_digits (acc : Z) (seen : bool) (s : string) : option Z :=
  match s with
  | EmptyString => if seen then Some acc else None
  | String c s' =>
      match digit c with
      | Some d => int_digits (10 * acc + d)%Z true s'
      | None =>
          if Ascii.eqb c "_"%char && seen then int_digits acc false s'
          else None
      end
  end.

(** The white space [int()] skips at both ends: that of [isspace]
    without the separators 28..31. *)
Definition int_space (c : ascii) : bool :=
  in_range 9 13 c || is_code 32 c || is_code 133 c || is_code 160 c.

Fixpoint int_lstrip (s : string) : string :=
  match s with
  | EmptyString => EmptyString
  | String c s' => if int_space c then int_lstrip s' else s
  end.

Fixpoint int_rstrip (s : string) : string :=
  match s with
  | EmptyString => EmptyString
  | String c s' =>
      match int_rstrip s' with
      | EmptyString =>
          if int_space c then EmptyString else String c EmptyString
      | r => String c r
      end
  end.

(** The default of [sys.int_max_str_digits]. *)
Definition MAX_STR_DIGITS : nat := 4300.

Fixpoint count_digits (s : string) : nat :=
  match s with
  | EmptyString => 0
  | String c s' =>
      (if in_range 48 57 c then 1 else 0) + count_digits s'
  end.

(** The literal after the sign: refused when it has more digits than
    [MAX_STR_DIGITS]. *)
Definition int_literal (s : string) : option Z :=
  if Nat.ltb MAX_STR_DIGITS (count_digits s) then None
  else int_digits 0 false s.

(** [int(s)] for a string: white space is skipped at both ends, then
    comes an optional sign, then the digits. [None] is [ValueError]. *)
Definition int (s : string) : option Z :=
  match int_rstrip (int_lstrip s) with
  | String "+"%char r => int_literal r
  | String "-"%char r => Z.opp <$> int_literal r
  | r => int_literal r
  end.

End Py.

(** ** Exceptions *)

(** The exceptions the reader can end with. [NoOptionError] is the spec's
    MissingOptionError, [ValueError] (raised by [int()] and by
    [getboolean]) its InvalidOptionType; each carries what the Python
    exception is built from. *)
Inductive exn : Type :=
| NoSectionError (section : string)
| NoOptionError (opt section : string)
| InterpolationDepthError (opt section : string)
| InterpolationSyntaxError (opt section : string)
| InterpolationMissingOptionError (opt section reference : string)
| ValueError (value : string).

Inductive result (A : Type) : Type :=
| Ok (a : A)
| Raise (e : exn).
Arguments Ok {A} a.
Arguments Raise {A} e.

#[global] Instance result_ret : MRet result := fun A a => Ok a.
#[global] Instance result_bind : MBind result := fun A B f m =>
  match m with
  | Ok a => f a
  | Raise e => Raise e
  end.

Definition is_ok {A} (r : result A) : bool :=
  match r with Ok _ => true | Raise _ => false end.

(** ** configparser *)

Module configparser.

(** What a [ConfigParser] holds once [read] has parsed the file: the
    options of the [DEFAULT] section, and the other sections in file
    order, each with its options. Option names are stored folded to
    lower case ([optionxform]). *)
Record ConfigParser : Type := mkConfigParser {
  _defaults : gmap string string;
  _sections : list (string * gmap string string)
}.

Definition default_section : string := "DEFAULT".
Definition MAX_INTERPOLATION_DEPTH : nat := 10.

Definition optionxform (optionstr : string) : string := Py.lower optionstr.

(** [sections()]: the section names, in file order, without [DEFAULT]. *)
Definition sections (cp : ConfigParser) : list string :=
  map fst (_sections cp).

Definition section_dict (cp : ConfigParser) (section : string)
  : option (gmap string string) :=
  snd <$> List.find (fun p => String.eqb (fst p) section) (_sections cp).

Definition has_section (cp : ConfigParser) (section : string) : bool :=
  bool_decide (is_Some (section_dict cp section)).

(** [_unify_values(section, None)]: the section's options chained over
    the defaults. *)
Definition _unify_values (cp : ConfigParser) (section : string)
  : result (gmap string string) :=
  match section_dict cp section with
  | Some sectiondict => Ok (sectiondict ∪ _defaults cp)
  | None =>
      if String.eqb section default_section then Ok (∅ ∪ _defaults cp)
      else Raise (NoSectionError section)
  end.

(** [get(section, option, raw=True, fallback=None)]: the stored text of
    an option of the section, its own or inherited from [DEFAULT];
    [None] when the section has no such option. *)
Definition get_raw (cp : ConfigParser) (section opt : string)
  : option string :=
  match _unify_values cp section with
  | Ok d => d !! optionxform opt
  | Raise _ => None
  end.

(** *** BasicInterpolation *)

(** The text before the first [c], and the text from it on. *)
Fixpoint break_at (c : ascii) (s : string) : string * string :=
  match s with
  | EmptyString => (EmptyString, EmptyString)
  | String d s' =>
      if Ascii.eqb d c then (EmptyString, s)
      else let (a, b) := break_at c s' in (String d a, b)
  end.

(** [_KEYCRE.match(rest)] for the pattern [%\(([^)]+)\)s]: the name
    between the parentheses and the text after the match. *)
Definition KEYCRE_match (rest : string) : option (string * string) :=
  match rest with
  | String "%"%char (String "("%char r) =>
      match break_at ")"%char r with
      | (String c name, String ")"%char (String "s"%char r')) =>
          Some (String c name, r')
      | _ => None
      end
  | _ => None
  end.

(** [_interpolate_some]. [fuel] counts the nesting levels still allowed:
    the top call is made at depth 1 and a call at a depth above
    [MAX_INTERPOLATION_DEPTH] raises. The inner loop is the [while rest]
    loop, which consumes at least one character per round. The pieces
    appended to [accum] are returned joined. *)
Fixpoint _interpolate_some (opt section : string) (map : gmap string string)
    (fuel : nat) (rest : string) : result string :=
  match fuel with
  | O => Raise (InterpolationDepthError opt section)
  | S fuel' =>
      (fix loop (n : nat) (rest : string) : result string :=
         match n with
         | O => Ok EmptyString
         | S n' =>
             match break_at "%"%char rest with
             | (_, EmptyString) => Ok rest
             | (pre, String _ EmptyString) =>
                 Raise (InterpolationSyntaxError opt section)
             | (pre, String _ (String c r) as rest1) =>
                 if Ascii.eqb c "%"%char then
                   tl ← loop n' r; Ok (pre +:+ "%" +:+ tl)
                 else if Ascii.eqb c "("%char then
                   match KEYCRE_match rest1 with
                   | None => Raise (InterpolationSyntaxError opt section)
                   | Some (name, rest2) =>
                       let var := optionxform name in
                       match map !! var with
                       | None =>
                           Raise (InterpolationMissingOptionError
                                    opt section var)
                       | Some v =>
                           v' ← (if Py.has_char "%"%char v
                                 then _interpolate_some opt section map fuel' v
                                 else Ok v);
                           tl ← loop n' rest2;
                           Ok (pre +:+ v' +:+ tl)
                       end
                   end
                 else Raise (InterpolationSyntaxError opt section)
             end
         end) (String.length rest) rest
  end.

Definition before_get (section opt value : string)
    (defaults : gmap string string) : result string :=
  _interpolate_some opt section defaults MAX_INTERPOLATION_DEPTH value.

(** [get(section, option)], with no fallback. *)
Definition get (cp : ConfigParser) (section opt : string) : result string :=
  d ← _unify_values cp section;
  let opt := optionxform opt in
  match d !! opt with
  | None => Raise (NoOptionError opt section)
  | Some value => before_get section opt value d
  end.

(** [getint(section, option)]: [int(get(section, option))] *)
Definition getint (cp : ConfigParser) (section opt : string) : result Z :=
  value ← get cp section opt;
  match Py.int value with
  | Some n => Ok n
  | None => Raise (ValueError value)
  end.

Definition BOOLEAN_STATES : list (string * bool) :=
  [("1", true); ("yes", true); ("true", true); ("on", true);
   ("0", false); ("no", false); ("false", false); ("off", false)].

Definition _convert_to_boolean (value : string) : result bool :=
  match List.find (fun p => String.eqb (fst p) (Py.lower value))
                  BOOLEAN_STATES with
  | Some (_, b) => Ok b
  | None => Raise (ValueError value)
  end.

(** The value is one of the tokens of [BOOLEAN_STATES], whatever its
    case. *)
Definition recognised (value : string) : bool :=
  Py.contains (Py.lower value) (map fst BOOLEAN_STATES).

(** [getboolean(section, option)] *)
Definition getboolean (cp : ConfigParser) (section opt : string)
  : result bool :=
  value ← get cp section opt;
  _convert_to_boolean value.

End configparser.

(** ** Output and exceptions together *)

(** A method of [RunnerConfig] may print lines and may raise: it yields
    the lines printed, in order, and its result. Lines printed before an
    exception stay printed. *)
Definition io (A : Type) : Type := (list string * result A)%type.

#[global] Instance io_ret : MRet io := fun A a => ([], Ok a).
#[global] Instance io_bind : MBind io := fun A B f m =>
  match m with
  | (out, Ok a) => let (out', r) := f a in ((out ++ out')%list, r)
  | (out, Raise e) => (out, Raise e)
  end.

Definition print (line : string) : io unit := ([line], Ok tt).
Definition lift {A} (r : result A) : io A := ([], r).
Definition printed {A} (m : io A) : list string := fst m.
Definition outcome {A} (m : io A) : result A := snd m.

(** [for x in l: s = body(s, x)], stopping at the first exception. *)
Fixpoint for_each {A S : Type} (body : S -> A -> io S) (l : list A) (s : S)
  : io S :=
  match l with
  | [] => mret s
  | x :: l' => s' ← body s x; for_each body l' s'
  end.

(** ** RunnerConfig *)

Module Runner.
Import configparser.

(** A value of the options dictionary of a section. *)
Inductive value : Type :=
| VInt (n : Z)
| VBool (b : bool)
| VStr (s : string).

(** The right-hand sides of [OPTION_KEYS], as far as the dispatch of
    [__process_config_keys] looks at them: the type of the marker, or
    the function when the marker is callable. *)
Inductive marker : Type :=
| an_int
| a_bool
| a_str
| a_callable (f : string -> string)
| other.

(** The dictionary is iterated in the order it is written. *)
Definition OPTION_KEYS : list (string * marker) :=
  [("trials", an_int);
   ("min_mpl", an_int);
   ("max_mpl", an_int);
   ("inc_mpl", an_int);
   ("output", a_callable Py.lower);
   ("workload", a_str);
   ("output_plots", a_bool)].

(** [DbSystem(name, config, label=..., tablename=...)]: the class is
    defined in dbsystem.py; the reader only builds its instances, so an
    instance is the record of the four constructor arguments. *)
Record DbSystem : Type := mkDbSystem {
  db_name : string;
  db_config : gmap string value;
  db_label : string;
  db_tablename : string
}.

(** A compiled regular expression with one group, as the reader uses
    it: [search] gives the text of the group at the first match, [sub]
    the string with every match removed. *)
Record Pattern : Type := mkPattern {
  search : string -> option string;
  sub : string -> string
}.

(** The descriptor built for a declaration, given as (label, bare name). *)
Definition descriptor (config : gmap string value) (tablename : string)
    (d : string * string) : DbSystem :=
  mkDbSystem (snd d) config (fst d) tablename.

Section RunnerConfig.

(** The three names imported from constants.py. *)
Variable SUPPORTED_DBS : list string.
Variable DEFAULT_TABLENAME : string.
Variable RE_DBNAME_LABEL : Pattern.

(** [self.config] *)
Variable self : ConfigParser.

(** One round of the loop of [__process_config_keys]. *)
Definition process_key (section : string) (config : gmap string value)
    (kt : string * marker) : io (gmap string value) :=
  let (k, t) := kt in
  match t with
  | an_int =>
      n ← lift (getint self section k); mret (<[k := VInt n]> config)
  | a_bool =>
      b ← lift (getboolean self section k); mret (<[k := VBool b]> config)
  | a_str =>
      s ← lift (get self section k); mret (<[k := VStr s]> config)
  | a_callable f =>
      s ← lift (get self section k); mret (<[k := VStr (f s)]> config)
  | other =>
      _ ← print ("Warning: skipping key " +:+ k +:+ " with invalid type");
      mret config
  end.

Definition __process_config_keys (section : string)
  : io (gmap string value) :=
  for_each (process_key section) OPTION_KEYS ∅.

(** The label and the bare name of one piece of a section heading. *)
Definition split_label (db : string) : string * string :=
  match search RE_DBNAME_LABEL db with
  | Some label => (label, sub RE_DBNAME_LABEL db)
  | None => (EmptyString, db)
  end.

Definition supported (db : string) : bool :=
  Py.contains (Py.lower db) SUPPORTED_DBS.

Definition invalid_database (db : string) : string :=
  "Invalid database found: " +:+ db +:+ ". Only (" +:+
  Py.join "," SUPPORTED_DBS +:+ ") are supported. Skipping...".

(** One round of the loop of [__process_dbs]. *)
Definition process_db (config : gmap string value)
    (db_instances : list DbSystem) (db : string) : io (list DbSystem) :=
  let (label, db) := split_label db in
  if negb (supported db) then
    _ ← print (invalid_database db); mret db_instances
  else
    tablename ← lift (get self "tablename" DEFAULT_TABLENAME);
    mret (db_instances ++ [mkDbSystem db config label tablename])%list.

Definition __process_dbs (section : string) (config : gmap string value)
  : io (list DbSystem) :=
  let section := map Py.strip (Py.split ","%char section) in
  for_each (process_db config) section [].

(** What one round of the loop of [__process_sections] adds to
    [dbs]. *)
Definition process_section (section : string) : io (list DbSystem) :=
  config ← __process_config_keys section;
  __process_dbs section config.

Definition __process_sections : io (list DbSystem) :=
  for_each
    (fun dbs section =>
       new ← process_section section; mret (dbs ++ new)%list)
    (sections self) [].

(** *** What the properties below speak of *)

(** The pieces of a section heading. *)
Definition pieces (section : string) : list string :=
  map Py.strip (Py.split ","%char section).

(** The declarations of a heading that name a supported database, as
    (label, bare name), in the order of the heading. *)
Definition declared (section : string) : list (string * string) :=
  List.filter (fun d => supported (snd d))
              (map split_label (pieces section)).

(** The diagnostics for the pieces that name no supported database. *)
Definition diagnostics (dbs : list string) : list string :=
  map (fun db => invalid_database (snd (split_label db)))
      (List.filter (fun db => negb (supported (snd (split_label db)))) dbs).

(** The loop of [__process_config_keys] over the seven entries of
    [OPTION_KEYS], read as straight-line code. *)
Definition option_set (section : string) : result (gmap string value) :=
  trials ← getint self section "trials";
  min_mpl ← getint self section "min_mpl";
  max_mpl ← getint self section "max_mpl";
  inc_mpl ← getint self section "inc_mpl";
  output ← get self section "output";
  workload ← get self section "workload";
  output_plots ← getboolean self section "output_plots";
  Ok (<["output_plots" := VBool output_plots]>
      (<["workload" := VStr workload]>
       (<["output" := VStr (Py.lower output)]>
        (<["inc_mpl" := VInt inc_mpl]>
         (<["max_mpl" := VInt max_mpl]>
          (<["min_mpl" := VInt min_mpl]>
           (<["trials" := VInt trials]> ∅))))))).

(** The descriptors a section contributes when its options resolve and
    the table name lookup succeeds. *)
Definition section_descriptors (section : string) : list DbSystem :=
  match option_set section, get self "tablename" DEFAULT_TABLENAME with
  | Ok config, Ok tablename =>
      map (descriptor config tablename) (declared section)
  | _, _ => []
  end.

(** The entry of [OPTION_KEYS] can be read and coerced in the
    section. *)
Definition resolves (section : string) (kt : string * marker) : bool :=
  is_ok (outcome (process_key section ∅ kt)).

End RunnerConfig.

(** The names of the required options, in the order they are read. *)
Definition REQUIRED : list string := map fst OPTION_KEYS.

(** Two descriptors agree on every field. *)
Definition same_fields (d1 d2 : DbSystem) : Prop :=
  db_name d1 = db_name d2 /\ db_label d1 = db_label d2 /\
  (forall k, db_config d1 !! k = db_config d2 !! k) /\
  db_tablename d1 = db_tablename d2.

(** The object [RunnerConfig(configfile)] builds. *)
Record RunnerConfig : Type := mkRunnerConfig {
  config : ConfigParser;
  dbs : list DbSystem
}.

(** [__init__]: [parsed] is what [self.config.read(configfile)] leaves
    in the parser. *)
Definition __init__ (SUPPORTED_DBS : list string)
    (DEFAULT_TABLENAME : string) (RE_DBNAME_LABEL : Pattern)
    (parsed : ConfigParser) : io RunnerConfig :=
  dbs ← __process_sections SUPPORTED_DBS DEFAULT_TABLENAME RE_DBNAME_LABEL
          parsed;
  mret (mkRunnerConfig parsed dbs).

(** The spec's [load]: the descriptors of the object built. *)
Definition load (SUPPORTED_DBS : list string)
    (DEFAULT_TABLENAME : string) (RE_DBNAME_LABEL : Pattern)
    (parsed : ConfigParser) : io (list DbSystem) :=
  runner ← __init__ SUPPORTED_DBS DEFAULT_TABLENAME RE_DBNAME_LABEL parsed;
  mret (dbs runner).

(** *** The type tests of [__process_config_keys] *)

(** The values the right-hand sides of [OPTION_KEYS] evaluate to:
    [int()] is [0], [str()] the empty string, [bool()] is [False], and
    the [lambda] a function. *)
Inductive py_value : Type :=
| py_int (n : Z)
| py_bool (b : bool)
| py_str (s : string)
| py_function (f : string -> string).

Inductive py_type : Type :=
| type_int
| type_bool
| type_str
| type_function.

(** [type(t)] *)
Definition type (t : py_value) : py_type :=
  match t with
  | py_int _ => type_int
  | py_bool _ => type_bool
  | py_str _ => type_str
  | py_function _ => type_function
  end.

(** [a is b] for two types *)
Definition type_is (a b : py_type) : bool :=
  match a, b with
  | type_int, type_int | type_bool, type_bool
  | type_str, type_str | type_function, type_function => true
  | _, _ => false
  end.

(** [callable(t)] *)
Definition callable (t : py_value) : bool :=
  match t with py_function _ => true | _ => false end.

(** [OPTION_KEYS] as the class writes it. *)
Definition OPTION_KEYS_values : list (string * py_value) :=
  [("trials", py_int 0);
   ("min_mpl", py_int 0);
   ("max_mpl", py_int 0);
   ("inc_mpl", py_int 0);
   ("output", py_function (fun s => Py.lower s));
   ("workload", py_str EmptyString);
   ("output_plots", py_bool false)].

(** The [if]/[elif] chain of the loop: which branch a value takes. *)
Definition dispatch (t : py_value) : marker :=
  if type_is (type t) (type (py_int 0)) then an_int
  else if type_is (type t) (type (py_bool false)) then a_bool
  else if type_is (type t) (type (py_str EmptyString)) then a_str
  else if callable t then
    match t with py_function f => a_callable f | _ => other end
  else other.

(** The loop of [__process_config_keys] over [OPTION_KEYS] as written,
    each round choosing its branch by the type tests. *)
Definition process_config_keys_by_type (self : ConfigParser)
    (section : string) : io (gmap string value) :=
  for_each
    (fun config kt => process_key self section config
                        (fst kt, dispatch (snd kt)))
    OPTION_KEYS_values ∅.

(** Two readings of the same parsed file, one after the other. *)
Definition load_twice (SUPPORTED_DBS : list string)
    (DEFAULT_TABLENAME : string) (RE_DBNAME_LABEL : Pattern)
    (parsed : ConfigParser) : io (list DbSystem * list DbSystem) :=
  first ← load SUPPORTED_DBS DEFAULT_TABLENAME RE_DBNAME_LABEL parsed;
  second ← load SUPPORTED_DBS DEFAULT_TABLENAME RE_DBNAME_LABEL parsed;
  mret (first, second).

End Runner.

(** ** A registry, and configuration files to run the reader on *)

Module Registry.
Import configparser Runner.

(** Modelled from the spec: constants.py, which defines [SUPPORTED_DBS],
    is not among the sources. The spec names mysql and postgres as
    recognised database names, in lower case, and foodb as one that is
    not. *)
Definition SUPPORTED_DBS : list string := ["mysql"; "postgres"].

(** Modelled from the spec: constants.py, which defines
    [DEFAULT_TABLENAME], is not among the sources; the spec only says
    it is a fixed string constant. *)
Definition DEFAULT_TABLENAME : string := "usertable".

Fixpoint ends_with_paren (s : string) : option string :=
  match s with
  | EmptyString => None
  | String c EmptyString =>
      if Ascii.eqb c ")"%char then Some EmptyString else None
  | String c s' => String c <$> ends_with_paren s'
  end.

(** The bare name and the label of a piece that ends in a
    parenthesised label. *)
Definition labelled (db : string) : option (string * string) :=
  match break_at "("%char db with
  | (bare, String _ r) => pair bare <$> ends_with_paren r
  | _ => None
  end.

(** Modelled from the spec: constants.py, which defines
    [RE_DBNAME_LABEL], is not among the sources. The spec describes a
    label as a parenthesised tag appended to the database name, as in
    [mysql(run1)]: the pattern matches from the first opening
    parenthesis to a closing one that ends the piece, and its group is
    the text between them. *)
Definition RE_DBNAME_LABEL : Pattern := {|
  search db := snd <$> labelled db;
  sub db := match labelled db with Some (bare, _) => bare | None => db end
|}.

(** A configuration file, written as its [DEFAULT] options and its
    sections in order. *)
Definition ini (defaults : list (string * string))
    (sections : list (string * list (string * string))) : ConfigParser :=
  mkConfigParser (list_to_map defaults)
    (map (fun s => (fst s, list_to_map (snd s))) sections).

Definition load : ConfigParser -> io (list DbSystem) :=
  Runner.load SUPPORTED_DBS DEFAULT_TABLENAME RE_DBNAME_LABEL.

(** The option set of the spec's example section. *)
Definition options : list (string * string) :=
  [("trials", "5"); ("min_mpl", "1"); ("max_mpl", "4"); ("inc_mpl", "1");
   ("output", "CSV"); ("workload", "w.txt"); ("output_plots", "true")].

Definition resolved : gmap string value :=
  list_to_map
    [("trials", VInt 5); ("min_mpl", VInt 1); ("max_mpl", VInt 4);
     ("inc_mpl", VInt 1); ("output", VStr "csv");
     ("workload", VStr "w.txt"); ("output_plots", VBool true)].

(** The options of a section without one of them, and with one of them
    given another value. *)
Definition without (k : string) (opts : list (string * string))
  : list (string * string) :=
  List.filter (fun kv => negb (String.eqb (fst kv) k)) opts.

Definition replaced (k v : string) (opts : list (string * string))
  : list (string * string) :=
  map (fun kv => if String.eqb (fst kv) k then (k, v) else kv) opts.

(** The spec's example: one section for two databases, one labelled. *)
Definition round_trip : ConfigParser :=
  ini [] [("mysql(a), postgres", options)].

(** The same with a section [tablename] that defines the option named by
    [DEFAULT_TABLENAME]; being a section, it needs the required options
    too. *)
Definition round_trip_with_table : ConfigParser :=
  ini [] [("mysql(a), postgres", options);
          ("tablename", ("usertable", "t1") :: options)].

Definition single_mysql : ConfigParser :=
  ini [] [("mysql", options)].

Definition foodb_mysql : ConfigParser :=
  ini [] [("foodb, mysql", options)].

Definition foodb_mysql_with_table : ConfigParser :=
  ini [] [("foodb, mysql", options);
          ("tablename", ("usertable", "t1") :: options)].

(** Three sections that take their options from [DEFAULT]. *)
Definition three_sections : ConfigParser :=
  ini (("usertable", "t1") :: options)
      [("mysql(a), postgres", []); ("foodb, Mysql", []); ("tablename", [])].

Definition three_sections_dbs : list DbSystem :=
  [mkDbSystem "mysql" resolved "a" "t1";
   mkDbSystem "postgres" resolved EmptyString "t1";
   mkDbSystem "Mysql" resolved EmptyString "t1"].

(** In the first section [trials] is not a number; the second section
    has no [trials]. *)
Definition trials_ill_typed : ConfigParser :=
  ini [] [("mysql", replaced "trials" "abc" options);
          ("postgres", without "trials" options)].

Definition min_mpl_missing : ConfigParser :=
  ini [] [("mysql", without "min_mpl" options)].

(** A heading without a supported database, and no [trials]. *)
Definition foodb_no_trials : ConfigParser :=
  ini [] [("foodb", without "trials" options)].

Definition plots_maybe : ConfigParser :=
  ini [] [("mysql", replaced "output_plots" "maybe" options)].

Definition plots_maybe_no_trials : ConfigParser :=
  ini [] [("mysql",
           replaced "output_plots" "maybe" (without "trials" options))].

(** [min_mpl] is not an integer literal. *)
Definition min_mpl_ill_typed : ConfigParser :=
  ini [] [("mysql", replaced "min_mpl" "1.5" options)].

(** The second of three sections has no [trials]. *)
Definition second_fails : ConfigParser :=
  ini [] [("foodb", options); ("mysql", without "trials" options);
          ("postgres", options)].

(** A section [tablename] that does not define the option named by
    [DEFAULT_TABLENAME]. *)
Definition tablename_without_option : ConfigParser :=
  ini [] [("mysql", options); ("tablename", options)].

(** [output] is written [CSV%%], an escaped percent sign. *)
Definition output_percent : ConfigParser :=
  ini [] [("mysql", replaced "output" "CSV%%" options)].

(** [output_plots] is written [50%]. *)
Definition plots_percent : ConfigParser :=
  ini [] [("mysql", replaced "output_plots" "50%" options)].

(** [output_plots] is written [Yes]. *)
Definition plots_yes : ConfigParser :=
  ini [] [("mysql", replaced "output_plots" "Yes" options)].

End Registry.

(** The tokens of [BOOLEAN_STATES] that stand for [True]. *)
Definition TRUTHY : list string := ["1"; "yes"; "true"; "on"].

(** The exceptions of [BasicInterpolation]. *)
Definition is_interpolation_error (e : exn) : Prop :=
  match e with
  | InterpolationDepthError _ _
  | InterpolationSyntaxError _ _
  | InterpolationMissingOptionError _ _ _ => True
  | _ => False
  end.

(** The four options read with [getint]. *)
Definition INTEGER_KEYS : list string :=
  ["trials"; "min_mpl"; "max_mpl"; "inc_mpl"].

(** * Properties *)

(** ** Python strings and configparser *)

Example lower_CSV : Py.lower "CSV" = "csv".
Proof. reflexivity. Qed.

Example split_header :
  map Py.strip (Py.split "," "mysql(a), postgres") = ["mysql(a)"; "postgres"].
Proof. reflexivity. Qed.

Example int_examples :
  Py.int "5" = Some 5%Z /\ Py.int " -1_000 " = Some (-1000)%Z /\
  Py.int "abc" = None /\ Py.int EmptyString = None /\ Py.int "1__0" = None /\
  Py.int "007" = Some 7%Z.
Proof. repeat split; reflexivity. Qed.

Example latin1_examples :
  Py.int (String "5" (String (ascii_of_nat 28) EmptyString)) = None /\
  Py.int (String (ascii_of_nat 160) "5") = Some 5%Z /\
  Py.lower (String (ascii_of_nat 201) "CSV")
  = String (ascii_of_nat 233) "csv" /\
  Py.strip (String (ascii_of_nat 160) "a ") = "a".
Proof. repeat split; reflexivity. Qed.

Example get_examples :
  let cp := Registry.ini [("fmt", "CSV%%")]
              [("a", [("output", "%(Fmt)s-x"); ("bad", "50%")])] in
  configparser.get cp "a" "output" = Ok "CSV%-x" /\
  configparser.get cp "a" "bad"
  = Raise (InterpolationSyntaxError "bad" "a") /\
  configparser.get cp "a" "Trials" = Raise (NoOptionError "trials" "a") /\
  configparser.get cp "b" "output" = Raise (NoSectionError "b") /\
  configparser.get cp "DEFAULT" "fmt" = Ok "CSV%".
Proof. repeat split; vm_compute; reflexivity. Qed.

(** ** The two monads *)

Lemma ok_bind {A B} (a : A) (f : A -> result B) : Ok a ≫= f = f a.
Proof. reflexivity. Qed.

Lemma raise_bind {A B} (e : exn) (f : A -> result B) : Raise e ≫= f = Raise e.
Proof. reflexivity. Qed.

Lemma lift_ok_bind {A B} (a : A) (f : A -> io B) : lift (Ok a) ≫= f = f a.
Proof. unfold lift, mbind, io_bind. destruct (f a); reflexivity. Qed.

Lemma ret_bind {A B} (a : A) (f : A -> io B) : mret a ≫= f = f a.
Proof. apply (lift_ok_bind a f). Qed.

Lemma lift_raise_bind {A B} (e : exn) (f : A -> io B) :
  lift (Raise e) ≫= f = ([], Raise e).
Proof. reflexivity. Qed.

Lemma outcome_bind_ok {A B} (m : io A) (f : A -> io B) a :
  outcome m = Ok a -> outcome (m ≫= f) = outcome (f a).
Proof.
  destruct m as [out r]; simpl; intros ->.
  unfold mbind, io_bind. destruct (f a); reflexivity.
Qed.

Lemma outcome_bind_raise {A B} (m : io A) (f : A -> io B) e :
  outcome m = Raise e -> outcome (m ≫= f) = Raise e.
Proof. destruct m as [out r]; simpl; intros ->. reflexivity. Qed.

Lemma outcome_bind_inv {A B} (m : io A) (f : A -> io B) b :
  outcome (m ≫= f) = Ok b ->
  exists a, outcome m = Ok a /\ outcome (f a) = Ok b.
Proof.
  destruct m as [out [a|e]]; simpl; [|discriminate].
  unfold mbind, io_bind. destruct (f a) eqn:E; simpl; intros ->.
  exists a; rewrite E; auto.
Qed.

Lemma printed_bind_ok {A B} (m : io A) (f : A -> io B) a :
  outcome m = Ok a -> printed (m ≫= f) = (printed m ++ printed (f a))%list.
Proof.
  destruct m as [out r]; simpl; intros ->.
  unfold mbind, io_bind. destruct (f a); reflexivity.
Qed.

Lemma printed_bind_raise {A B} (m : io A) (f : A -> io B) e :
  outcome m = Raise e -> printed (m ≫= f) = printed m.
Proof. destruct m as [out r]; simpl; intros ->. reflexivity. Qed.

Lemma for_each_app {A S} (body : S -> A -> io S) (l1 l2 : list A) (s : S) :
  for_each body (l1 ++ l2)%list s
  = for_each body l1 s ≫= for_each body l2.
Proof.
  revert s; induction l1 as [|x l1 IH]; intros s; simpl.
  - unfold mret, io_ret, mbind, io_bind.
    destruct (for_each body l2 s); reflexivity.
  - unfold mbind, io_bind in *.
    destruct (body s x) as [out [s'|e]]; [|reflexivity].
    rewrite IH. destruct (for_each body l1 s') as [out1 [s1|e1]].
    + destruct (for_each body l2 s1) as [out2 r2].
      now rewrite app_assoc.
    + reflexivity.
Qed.

(** ** configparser *)

Section Parser.
Import configparser.
Variable cp : ConfigParser.

Lemma section_dict_In section :
  In section (sections cp) -> exists d, section_dict cp section = Some d.
Proof.
  unfold sections, section_dict. induction (_sections cp) as [|[n d] l IH].
  - intros [].
  - simpl. destruct (String.eqb_spec n section) as [->|Hne].
    + intros _. exists d. reflexivity.
    + intros [H|H]; [contradiction|]. exact (IH H).
Qed.

Lemma get_no_section section opt :
  has_section cp section = false -> section <> default_section ->
  get cp section opt = Raise (NoSectionError section).
Proof.
  unfold has_section, get, _unify_values. intros Hs Hd.
  destruct (section_dict cp section) as [d|].
  - apply bool_decide_eq_false in Hs. destruct Hs. eauto.
  - apply String.eqb_neq in Hd. rewrite Hd. reflexivity.
Qed.

Lemma get_missing section opt :
  In section (sections cp) -> get_raw cp section opt = None ->
  get cp section opt = Raise (NoOptionError (optionxform opt) section).
Proof.
  intros Hin. destruct (section_dict_In _ Hin) as [d Hd].
  unfold get_raw, get, _unify_values. rewrite Hd. simpl.
  intros ->. reflexivity.
Qed.

Lemma get_absent section opt :
  get_raw cp section opt = None -> is_ok (get cp section opt) = false.
Proof.
  unfold get_raw, get.
  destruct (_unify_values cp section) as [d|e]; [|reflexivity].
  simpl. now intros ->.
Qed.

Lemma getint_missing section opt :
  In section (sections cp) -> get_raw cp section opt = None ->
  getint cp section opt = Raise (NoOptionError (optionxform opt) section).
Proof. intros H1 H2. unfold getint. now rewrite get_missing. Qed.

Lemma getboolean_missing section opt :
  In section (sections cp) -> get_raw cp section opt = None ->
  getboolean cp section opt
  = Raise (NoOptionError (optionxform opt) section).
Proof. intros H1 H2. unfold getboolean. now rewrite get_missing. Qed.

(** A value without a percent sign is returned as it is stored. *)
Lemma break_at_absent c s :
  Py.has_char c s = false -> break_at c s = (s, EmptyString).
Proof.
  induction s as [|d s IH]; simpl; [reflexivity|].
  rewrite Ascii.eqb_sym. destruct (Ascii.eqb d c); simpl; [discriminate|].
  intros H. now rewrite (IH H).
Qed.

Lemma before_get_plain section opt value d :
  Py.has_char "%"%char value = false ->
  before_get section opt value d = Ok value.
Proof.
  intros H. unfold before_get, MAX_INTERPOLATION_DEPTH. simpl.
  destruct value as [|c v]; [reflexivity|].
  cbn [String.length]. rewrite (break_at_absent _ _ H). reflexivity.
Qed.

Lemma get_plain section opt value :
  get_raw cp section opt = Some value ->
  Py.has_char "%"%char value = false ->
  get cp section opt = Ok value.
Proof.
  unfold get_raw, get. destruct (_unify_values cp section) as [d|e];
    [|discriminate].
  simpl. intros -> H. now apply before_get_plain.
Qed.

Lemma convert_unrecognised value :
  recognised value = false ->
  _convert_to_boolean value = Raise (ValueError value).
Proof.
  unfold recognised, _convert_to_boolean, Py.contains.
  induction BOOLEAN_STATES as [|[token b] l IH]; [reflexivity|].
  simpl. rewrite String.eqb_sym.
  destruct (String.eqb token (Py.lower value)); [discriminate|].
  exact IH.
Qed.

End Parser.

(** ** The reader *)

Section Reader.
Import configparser Runner.

Variable SUPPORTED_DBS : list string.
Variable DEFAULT_TABLENAME : string.
Variable RE_DBNAME_LABEL : Pattern.
Variable self : ConfigParser.

#[local] Abbreviation process_db := (process_db SUPPORTED_DBS DEFAULT_TABLENAME
                          RE_DBNAME_LABEL self).
#[local] Abbreviation __process_dbs := (__process_dbs SUPPORTED_DBS DEFAULT_TABLENAME
                             RE_DBNAME_LABEL self).
#[local] Abbreviation process_section := (process_section SUPPORTED_DBS
                               DEFAULT_TABLENAME RE_DBNAME_LABEL self).
#[local] Abbreviation __process_sections := (__process_sections SUPPORTED_DBS
                                  DEFAULT_TABLENAME RE_DBNAME_LABEL self).
#[local] Abbreviation load := (load SUPPORTED_DBS DEFAULT_TABLENAME RE_DBNAME_LABEL).
#[local] Abbreviation supported := (supported SUPPORTED_DBS).
#[local] Abbreviation split_label := (split_label RE_DBNAME_LABEL).
#[local] Abbreviation declared := (declared SUPPORTED_DBS RE_DBNAME_LABEL).
#[local] Abbreviation section_descriptors :=
  (section_descriptors SUPPORTED_DBS DEFAULT_TABLENAME RE_DBNAME_LABEL self).
#[local] Abbreviation diagnostics := (diagnostics SUPPORTED_DBS RE_DBNAME_LABEL).
#[local] Abbreviation invalid_database := (invalid_database SUPPORTED_DBS).

(** *** Options *)

Lemma process_config_keys_eq section :
  __process_config_keys self section = lift (option_set self section).
Proof.
  unfold __process_config_keys, OPTION_KEYS, option_set.
  cbn [for_each process_key].
  repeat match goal with
         | |- context [lift ?r ≫= _] =>
             destruct r;
             [rewrite lift_ok_bind, ok_bind, ?ret_bind | reflexivity]
         end.
  reflexivity.
Qed.

Lemma process_config_keys_silent section :
  printed (__process_config_keys self section) = [].
Proof. now rewrite process_config_keys_eq. Qed.

Lemma process_config_keys_outcome section :
  outcome (__process_config_keys self section) = option_set self section.
Proof. now rewrite process_config_keys_eq. Qed.

(** *** Database declarations *)

Lemma process_db_unsupported config db_instances db :
  supported (snd (split_label db)) = false ->
  process_db config db_instances db
  = ([invalid_database (snd (split_label db))], Ok db_instances).
Proof.
  unfold process_db. destruct (split_label db) as [label bare]; simpl.
  intros ->. reflexivity.
Qed.

(** A piece that names no supported database costs one diagnostic, adds
    no descriptor, and the loop goes on with the pieces after it. *)
Lemma for_each_skips_unsupported config db dbs db_instances :
  supported (snd (split_label db)) = false ->
  for_each (process_db config) (db :: dbs) db_instances
  = (invalid_database (snd (split_label db))
       :: printed (for_each (process_db config) dbs db_instances),
     outcome (for_each (process_db config) dbs db_instances)).
Proof.
  intros H. cbn [for_each]. rewrite (process_db_unsupported _ _ _ H).
  unfold mbind, io_bind.
  destruct (for_each (process_db config) dbs db_instances); reflexivity.
Qed.

Lemma process_db_supported config db_instances db :
  supported (snd (split_label db)) = true ->
  process_db config db_instances db
  = lift (tablename ← get self "tablename" DEFAULT_TABLENAME;
          Ok (db_instances ++
              [mkDbSystem (snd (split_label db)) config
                          (fst (split_label db)) tablename])%list).
Proof.
  unfold process_db. destruct (split_label db) as [label bare]; simpl.
  intros ->. simpl.
  destruct (get self "tablename" DEFAULT_TABLENAME); reflexivity.
Qed.

Lemma for_each_process_db_ok config tablename dbs db_instances :
  get self "tablename" DEFAULT_TABLENAME = Ok tablename ->
  for_each (process_db config) dbs db_instances
  = (diagnostics dbs,
     Ok (db_instances ++
         map (descriptor config tablename)
             (List.filter (fun d => supported (snd d))
                          (map split_label dbs)))%list).
Proof.
  intros Ht. revert db_instances.
  induction dbs as [|db dbs IH]; intros db_instances.
  - simpl. now rewrite app_nil_r.
  - cbn [for_each]. unfold diagnostics in *. cbn [map List.filter].
    destruct (supported (snd (split_label db))) eqn:E.
    + rewrite process_db_supported, Ht, ok_bind, lift_ok_bind, IH by exact E.
      cbn [negb map]. now rewrite <- app_assoc.
    + rewrite process_db_unsupported by exact E.
      cbn [negb map]. unfold mbind, io_bind. now rewrite IH.
Qed.

Lemma for_each_process_db_raise config e dbs db_instances :
  get self "tablename" DEFAULT_TABLENAME = Raise e ->
  outcome (for_each (process_db config) dbs db_instances)
  = if existsb (fun db => supported (snd (split_label db))) dbs
    then Raise e else Ok db_instances.
Proof.
  intros Ht. induction dbs as [|db dbs IH]; [reflexivity|].
  cbn [for_each existsb].
  destruct (supported (snd (split_label db))) eqn:E.
  - now rewrite process_db_supported, Ht by exact E.
  - rewrite process_db_unsupported by exact E.
    cbn [orb]. rewrite <- IH. now apply outcome_bind_ok.
Qed.

Lemma existsb_supported_declared dbs :
  existsb (fun db => supported (snd (split_label db))) dbs = false ->
  List.filter (fun d => supported (snd d)) (map split_label dbs) = [].
Proof.
  induction dbs as [|db dbs IH]; [reflexivity|]. simpl.
  destruct (supported (snd (split_label db))); [discriminate|].
  exact IH.
Qed.

(** What a successful [__process_dbs] returns: the supported declarations
    of the heading, in their order, each with the option set it was
    given. *)
Lemma process_dbs_declared section config l :
  outcome (__process_dbs section config) = Ok l ->
  map (fun d => (db_label d, db_name d)) l = declared section /\
  Forall (fun d => db_config d = config) l.
Proof.
  unfold Runner.__process_dbs, declared. fold (pieces section).
  destruct (get self "tablename" DEFAULT_TABLENAME) as [t|e] eqn:Ht.
  - rewrite (for_each_process_db_ok _ t) by exact Ht. simpl.
    intros [= <-]. split.
    + rewrite map_map. simpl.
      induction (List.filter _ _) as [|[lbl bare] ds IH]; [reflexivity|].
      simpl. now rewrite IH.
    + apply List.Forall_forall. intros d Hd. apply in_map_iff in Hd.
      destruct Hd as (x & <- & _). reflexivity.
  - rewrite (for_each_process_db_raise _ e) by exact Ht.
    destruct (existsb _ _) eqn:E; [discriminate|].
    intros [= <-]. rewrite (existsb_supported_declared _ E). now split.
Qed.

Lemma process_dbs_descriptors section config l :
  outcome (__process_dbs section config) = Ok l ->
  l = match get self "tablename" DEFAULT_TABLENAME with
      | Ok tablename => map (descriptor config tablename) (declared section)
      | Raise _ => []
      end.
Proof.
  unfold Runner.__process_dbs, declared. fold (pieces section).
  destruct (get self "tablename" DEFAULT_TABLENAME) as [t|e] eqn:Ht.
  - rewrite (for_each_process_db_ok _ t) by exact Ht. simpl.
    now intros [= <-].
  - rewrite (for_each_process_db_raise _ e) by exact Ht.
    destruct (existsb _ _); [discriminate|]. now intros [= <-].
Qed.

(** *** Sections *)

Lemma load_eq :
  load self = __process_sections.
Proof.
  unfold Runner.load, __init__.
  destruct __process_sections as [out [l|e]]; simpl; [|reflexivity].
  now rewrite !app_nil_r.
Qed.

Lemma process_section_outcome section :
  outcome (process_section section)
  = match option_set self section with
    | Ok config => outcome (__process_dbs section config)
    | Raise e => Raise e
    end.
Proof.
  unfold Runner.process_section. rewrite process_config_keys_eq.
  destruct (option_set self section) as [config|e]; [|reflexivity].
  now rewrite lift_ok_bind.
Qed.

Lemma process_section_declared section l :
  outcome (process_section section) = Ok l ->
  map (fun d => (db_label d, db_name d)) l = declared section.
Proof.
  rewrite process_section_outcome.
  destruct (option_set self section) as [config|e]; [|discriminate].
  intros H. now apply process_dbs_declared in H.
Qed.

Lemma for_each_sections_declared sections dbs result :
  outcome (for_each
             (fun dbs section =>
                new ← process_section section; mret (dbs ++ new)%list)
             sections dbs) = Ok result ->
  map (fun d => (db_label d, db_name d)) result
  = (map (fun d => (db_label d, db_name d)) dbs
     ++ flat_map declared sections)%list.
Proof.
  revert dbs. induction sections as [|section sections IH]; intros dbs.
  - simpl. intros [= <-]. now rewrite app_nil_r.
  - cbn [for_each flat_map]. intros H.
    apply outcome_bind_inv in H. destruct H as (dbs' & H1 & H2).
    apply outcome_bind_inv in H1. destruct H1 as (new & H1 & [= <-]).
    rewrite (IH _ H2), map_app, (process_section_declared _ _ H1).
    now rewrite app_assoc.
Qed.

Lemma process_section_descriptors section l :
  outcome (process_section section) = Ok l ->
  l = section_descriptors section.
Proof.
  rewrite process_section_outcome. unfold Runner.section_descriptors.
  destruct (option_set self section) as [config|e]; [|discriminate].
  intros H. apply process_dbs_descriptors in H.
  destruct (get self "tablename" DEFAULT_TABLENAME); exact H.
Qed.

Lemma for_each_sections_descriptors sections dbs result :
  outcome (for_each
             (fun dbs section =>
                new ← process_section section; mret (dbs ++ new)%list)
             sections dbs) = Ok result ->
  result = (dbs ++ flat_map section_descriptors sections)%list.
Proof.
  revert dbs. induction sections as [|section sections IH]; intros dbs.
  - simpl. intros [= <-]. now rewrite app_nil_r.
  - cbn [for_each flat_map]. intros H.
    apply outcome_bind_inv in H. destruct H as (dbs' & H1 & H2).
    apply outcome_bind_inv in H1. destruct H1 as (new & H1 & [= <-]).
    rewrite (IH _ H2), (process_section_descriptors _ _ H1).
    now rewrite app_assoc.
Qed.

(** A section that raises makes the whole reading raise. *)
Lemma load_raises section :
  In section (sections self) ->
  is_ok (outcome (process_section section)) = false ->
  is_ok (outcome (load self)) = false.
Proof.
  intros Hin Hraise. rewrite load_eq. unfold Runner.__process_sections.
  destruct (in_split _ _ Hin) as (pre & post & ->).
  generalize (@nil DbSystem) as dbs. induction pre as [|s pre IH]; intros dbs.
  - cbn [app for_each].
    destruct (outcome (process_section section)) as [l|e] eqn:E;
      [discriminate|].
    erewrite outcome_bind_raise; [reflexivity|].
    erewrite outcome_bind_raise; [reflexivity|exact E].
  - cbn [app for_each].
    destruct (outcome (process_section s)) as [l|e] eqn:E.
    + erewrite outcome_bind_ok; [apply IH|].
      erewrite outcome_bind_ok; [reflexivity|exact E].
    + erewrite outcome_bind_raise; [reflexivity|].
      erewrite outcome_bind_raise; [reflexivity|exact E].
Qed.

(** C4. When the file is read successfully, the list returned is the
    descriptors of the first section, then those of the second, and so on
    in file order; and the labels and names of the descriptors of a
    section are those of the supported declarations of its heading, in
    the order of the heading. *)
Theorem descriptors_in_file_order dbs :
  outcome (load self) = Ok dbs ->
  dbs = flat_map section_descriptors (sections self) /\
  map (fun d => (db_label d, db_name d)) dbs
  = flat_map declared (sections self).
Proof.
  rewrite load_eq. unfold Runner.__process_sections. intros H. split.
  - now rewrite (for_each_sections_descriptors _ _ _ H).
  - now rewrite (for_each_sections_declared _ _ _ H).
Qed.

(** The number of descriptors of a successful reading. *)
Lemma descriptor_count dbs :
  outcome (load self) = Ok dbs ->
  length dbs = length (flat_map declared (sections self)).
Proof.
  rewrite load_eq. unfold Runner.__process_sections. intros H.
  pose proof (for_each_sections_declared _ _ _ H) as E. simpl in E.
  rewrite <- E. symmetry. apply List.length_map.
Qed.

(** *** Missing and ill-typed options *)

Ltac run_options :=
  repeat match goal with
         | |- context [@mbind result _ _ _ _ (?g self ?section ?key)] =>
             destruct (g self section key)
         end.

Lemma option_set_missing section k :
  In section (sections self) -> In k REQUIRED ->
  get_raw self section k = None ->
  is_ok (option_set self section) = false.
Proof.
  intros Hin Hk Hraw. unfold option_set.
  cbv [REQUIRED OPTION_KEYS map fst] in Hk.
  repeat (destruct Hk as [<-|Hk]);
    [rewrite (getint_missing self _ _ Hin Hraw) ..
    |rewrite (get_missing self _ _ Hin Hraw)
    |rewrite (get_missing self _ _ Hin Hraw)
    |rewrite (getboolean_missing self _ _ Hin Hraw)
    |destruct Hk];
    run_options; reflexivity.
Qed.

Lemma process_section_raises section :
  is_ok (option_set self section) = false ->
  exists e, process_section section = ([], Raise e).
Proof.
  unfold Runner.process_section. rewrite process_config_keys_eq.
  destruct (option_set self section) as [config|e]; [discriminate|].
  intros _. exists e. reflexivity.
Qed.

(** C10. A section that lacks a required option raises while its options
    are resolved: nothing has been printed for its heading, so none of its
    database declarations has been validated yet, whether they are
    supported or not; and the reading of the whole file ends with that
    exception instead of a result. *)
Theorem options_before_declarations section k :
  In section (sections self) -> In k REQUIRED ->
  get_raw self section k = None ->
  (exists e, process_section section = ([], Raise e)) /\
  is_ok (outcome (load self)) = false.
Proof.
  intros Hin Hk Hraw.
  pose proof (option_set_missing _ _ Hin Hk Hraw) as Hset.
  destruct (process_section_raises _ Hset) as [e He].
  split; [eauto|]. apply (load_raises section Hin). now rewrite He.
Qed.

(** Whether an entry resolves does not depend on the options gathered so
    far. *)
Lemma process_key_ok section config kt :
  is_ok (outcome (process_key self section config kt))
  = resolves self section kt.
Proof.
  unfold resolves. destruct kt as [k t].
  destruct t; cbn [process_key];
    [destruct (getint self section k)
    |destruct (getboolean self section k)
    |destruct (get self section k)
    |destruct (get self section k)|];
    reflexivity.
Qed.

Lemma for_each_keys_ok section keys config :
  (forall kt, In kt keys -> resolves self section kt = true) ->
  exists config',
    outcome (for_each (process_key self section) keys config) = Ok config'.
Proof.
  revert config. induction keys as [|kt keys IH]; intros config Hall.
  - exists config. reflexivity.
  - cbn [for_each].
    pose proof (process_key_ok section config kt) as Hok.
    rewrite (Hall kt (or_introl eq_refl)) in Hok.
    destruct (outcome (process_key self section config kt)) as [c|e] eqn:E;
      [|discriminate].
    destruct (IH c (fun kt' H => Hall kt' (or_intror H))) as [c' Hc'].
    exists c'. now rewrite (outcome_bind_ok _ _ _ E).
Qed.

Lemma process_key_missing section config k t :
  In (k, t) OPTION_KEYS -> In section (sections self) ->
  get_raw self section k = None ->
  outcome (process_key self section config (k, t))
  = Raise (NoOptionError k section).
Proof.
  intros Hk Hin Hraw. cbv [OPTION_KEYS] in Hk.
  repeat (destruct Hk as [[= <- <-]|Hk]); try destruct Hk; simpl;
    first [rewrite (getint_missing self _ _ Hin Hraw)
          |rewrite (getboolean_missing self _ _ Hin Hraw)
          |rewrite (get_missing self _ _ Hin Hraw)];
    reflexivity.
Qed.

Lemma first_missing_key section kpre k t kpost :
  OPTION_KEYS = (kpre ++ (k, t) :: kpost)%list ->
  In section (sections self) ->
  (forall kt, In kt kpre -> resolves self section kt = true) ->
  get_raw self section k = None ->
  outcome (__process_config_keys self section)
  = Raise (NoOptionError k section).
Proof.
  intros Hkeys Hin Hpre Hraw.
  assert (Hk : In (k, t) OPTION_KEYS)
    by (rewrite Hkeys; apply in_elt).
  unfold __process_config_keys. rewrite Hkeys, for_each_app.
  destruct (for_each_keys_ok section kpre ∅ Hpre) as [c Hc].
  rewrite (outcome_bind_ok _ _ _ Hc). cbn [for_each].
  apply outcome_bind_raise. now apply process_key_missing.
Qed.

Lemma for_each_sections_ok pre dbs :
  (forall s, In s pre -> is_ok (outcome (process_section s)) = true) ->
  exists dbs',
    outcome (for_each
               (fun dbs section =>
                  new ← process_section section; mret (dbs ++ new)%list)
               pre dbs) = Ok dbs'.
Proof.
  revert dbs. induction pre as [|s pre IH]; intros dbs Hall.
  - exists dbs. reflexivity.
  - cbn [for_each].
    pose proof (Hall s (or_introl eq_refl)) as Hs.
    destruct (outcome (process_section s)) as [new|e] eqn:E; [|discriminate].
    destruct (IH (dbs ++ new)%list (fun s' H => Hall s' (or_intror H)))
      as [dbs' Hdbs'].
    exists dbs'. erewrite outcome_bind_ok; [exact Hdbs'|].
    now rewrite (outcome_bind_ok _ _ _ E).
Qed.

(** C3, as the code has it. When some section lacks a required option
    (in the section and in [DEFAULT]), reading the file returns no
    descriptors: it ends with an exception and nothing stands in for the
    missing value. The exception is that of the first step that fails:
    it is [NoOptionError] for that section and option when the sections
    before it are read without exception and the options read before it
    in that section resolve. *)
Theorem missing_option_aborts section k :
  In section (sections self) -> In k REQUIRED ->
  get_raw self section k = None ->
  is_ok (outcome (load self)) = false /\
  forall pre post kpre t kpost,
    sections self = (pre ++ section :: post)%list ->
    OPTION_KEYS = (kpre ++ (k, t) :: kpost)%list ->
    (forall s, In s pre -> is_ok (outcome (process_section s)) = true) ->
    (forall kt, In kt kpre -> resolves self section kt = true) ->
    outcome (load self) = Raise (NoOptionError k section).
Proof.
  intros Hin Hk Hraw. split.
  - apply (load_raises section Hin).
    rewrite process_section_outcome.
    pose proof (option_set_missing _ _ Hin Hk Hraw) as Hset.
    destruct (option_set self section); [discriminate|reflexivity].
  - intros pre post kpre t kpost Hsecs Hkeys Hpre Hkpre.
    rewrite load_eq. unfold Runner.__process_sections.
    rewrite Hsecs, for_each_app.
    destruct (for_each_sections_ok pre [] Hpre) as [dbs Hdbs].
    rewrite (outcome_bind_ok _ _ _ Hdbs). cbn [for_each].
    apply outcome_bind_raise, outcome_bind_raise.
    unfold Runner.process_section. apply outcome_bind_raise.
    now apply (first_missing_key section kpre k t kpost).
Qed.

(** C9, as the code has it. When the parser returns for [output_plots]
    a string (the option is present and its value interpolates) that is
    none of the recognised tokens, resolving the options of the section
    raises and yields no option set. The options are read in the order of
    [OPTION_KEYS], [output_plots] last: the exception is a [ValueError]
    when the parser returns a string for each of the six options read
    before it. *)
Theorem unrecognised_boolean_raises section value :
  get self section "output_plots" = Ok value ->
  recognised value = false ->
  is_ok (outcome (__process_config_keys self section)) = false /\
  ((forall k,
       In k ["trials"; "min_mpl"; "max_mpl"; "inc_mpl"; "output"; "workload"] ->
       is_ok (get self section k) = true) ->
   exists x,
     outcome (__process_config_keys self section) = Raise (ValueError x)).
Proof.
  intros Hget Hvalue.
  assert (Hb : getboolean self section "output_plots"
               = Raise (ValueError value)).
  { unfold getboolean. rewrite Hget, ok_bind.
    now apply convert_unrecognised. }
  rewrite process_config_keys_outcome. unfold option_set. rewrite Hb.
  split.
  - run_options; reflexivity.
  - intros Hsix. unfold getint.
    repeat match goal with
           | |- context [@mbind result _ _ _ _ (get self section ?key)] =>
               let H := fresh in
               assert (H : is_ok (get self section key) = true)
                 by (apply Hsix; simpl; tauto);
               destruct (get self section key) as [?v|?e];
                 [clear H; rewrite !ok_bind|discriminate H]
           | |- context [Py.int ?v] =>
               destruct (Py.int v);
                 [rewrite ?ok_bind|rewrite ?raise_bind; eexists; reflexivity]
           end.
    eexists; reflexivity.
Qed.

(** C7, as the code has it. In the option set resolved for a section,
    the value of [output] is the string the parser returns for that
    option, in lower case: the configured text once the parser has
    interpolated it. It is the configured text in lower case when that
    text has no percent sign, so that [output=CSV] resolves to
    ["csv"]. *)
Theorem output_is_lowercased section config :
  outcome (__process_config_keys self section) = Ok config ->
  (exists raw,
      get self section "output" = Ok raw /\
      config !! "output" = Some (VStr (Py.lower raw))) /\
  (forall stored,
      get_raw self section "output" = Some stored ->
      Py.has_char "%"%char stored = false ->
      config !! "output" = Some (VStr (Py.lower stored))).
Proof.
  rewrite process_config_keys_outcome. unfold option_set. intros H.
  assert (Hraw : exists raw,
             get self section "output" = Ok raw /\
             config !! "output" = Some (VStr (Py.lower raw))).
  { revert H.
    destruct (getint self section "trials"); [|discriminate].
    destruct (getint self section "min_mpl"); [|discriminate].
    destruct (getint self section "max_mpl"); [|discriminate].
    destruct (getint self section "inc_mpl"); [|discriminate].
    destruct (get self section "output") as [raw|]; [|discriminate].
    destruct (get self section "workload"); [|discriminate].
    destruct (getboolean self section "output_plots"); [|discriminate].
    rewrite !ok_bind. intros [= <-]. exists raw. split; [reflexivity|].
    rewrite !lookup_insert_ne by discriminate.
    apply lookup_insert_eq. }
  split; [exact Hraw|].
  intros stored Hstored Hplain. destruct Hraw as (raw & Hget & ->).
  rewrite (get_plain self _ _ _ Hstored Hplain) in Hget.
  now injection Hget as <-.
Qed.

Lemma same_fields_refl dbs : Forall2 same_fields dbs dbs.
Proof. induction dbs; constructor; [repeat split|assumption]. Qed.

(** C8. Reading the same parsed file twice gives two lists of descriptors
    of the same length whose descriptors agree, position by position, on
    name, label, option values and table name; if the first reading
    raises, so does the second, with the same exception. *)
Theorem load_twice_same :
  match outcome (load_twice SUPPORTED_DBS DEFAULT_TABLENAME RE_DBNAME_LABEL
                   self) with
  | Ok (first, second) => Forall2 same_fields first second
  | Raise e => outcome (load self) = Raise e
  end.
Proof.
  unfold load_twice.
  destruct (load self) as [out [dbs|e]]; simpl; [|reflexivity].
  apply same_fields_refl.
Qed.

(** *** The table name *)

(** When the table name lookup succeeds and the options of every section
    resolve, the reading returns. *)
Lemma load_returns tablename :
  get self "tablename" DEFAULT_TABLENAME = Ok tablename ->
  (forall s, In s (sections self) -> is_ok (option_set self s) = true) ->
  outcome (load self) = Ok (flat_map section_descriptors (sections self)).
Proof.
  intros Ht Hall.
  assert (Hsec : forall s, In s (sections self) ->
                           is_ok (outcome (process_section s)) = true).
  { intros s Hs. rewrite process_section_outcome.
    specialize (Hall s Hs).
    destruct (option_set self s) as [config|e]; [|discriminate].
    unfold Runner.__process_dbs.
    now rewrite (for_each_process_db_ok _ _ _ _ Ht). }
  rewrite load_eq. unfold Runner.__process_sections.
  destruct (for_each_sections_ok (sections self) [] Hsec) as [dbs Hdbs].
  rewrite Hdbs. now rewrite (for_each_sections_descriptors _ _ _ Hdbs).
Qed.

(** Without a section [tablename], a reading that returns, returns no
    descriptor. *)
Lemma load_without_tablename dbs :
  has_section self "tablename" = false ->
  outcome (load self) = Ok dbs -> dbs = [].
Proof.
  intros Hno H.
  assert (Hget : get self "tablename" DEFAULT_TABLENAME
                 = Raise (NoSectionError "tablename"))
    by (apply get_no_section; [exact Hno|discriminate]).
  rewrite load_eq in H. unfold Runner.__process_sections in H.
  rewrite (for_each_sections_descriptors _ _ _ H). cbn [app]. clear H.
  induction (sections self) as [|s l IH]; [reflexivity|].
  cbn [flat_map]. rewrite IH. unfold Runner.section_descriptors.
  rewrite Hget. now destruct (option_set self s).
Qed.


Lemma declared_existsb section :
  declared section <> [] ->
  existsb (fun db => supported (snd (split_label db))) (pieces section) = true.
Proof.
  intros H. destruct (existsb _ _) eqn:E; [reflexivity|].
  destruct H. now apply existsb_supported_declared.
Qed.

(** The spec's example heading, whatever the constants are, as long as
    the pattern splits [mysql(a)] into [mysql] and [a], leaves [postgres]
    alone, and both names are supported: when the table name lookup
    succeeds, the heading gives the two descriptors. *)
Lemma round_trip_with_tablename config tablename :
  search RE_DBNAME_LABEL "mysql(a)" = Some "a" ->
  sub RE_DBNAME_LABEL "mysql(a)" = "mysql" ->
  search RE_DBNAME_LABEL "postgres" = None ->
  supported "mysql" = true -> supported "postgres" = true ->
  get self "tablename" DEFAULT_TABLENAME = Ok tablename ->
  __process_dbs "mysql(a), postgres" config
  = ([], Ok [mkDbSystem "mysql" config "a" tablename;
             mkDbSystem "postgres" config EmptyString tablename]).
Proof.
  intros Hsearch Hsub Hnone Hmysql Hpostgres Ht.
  unfold Runner.__process_dbs.
  rewrite (for_each_process_db_ok _ _ _ _ Ht).
  change (map Py.strip (Py.split ","%char "mysql(a), postgres"))
    with ["mysql(a)"; "postgres"].
  unfold diagnostics. cbn [map List.filter].
  unfold Runner.split_label. rewrite Hsearch, Hsub, Hnone.
  cbn [snd fst]. rewrite Hmysql, Hpostgres. reflexivity.
Qed.

(** C1, what the code does. When the file has no option named by
    [DEFAULT_TABLENAME] in a section named [tablename], [__process_dbs]
    raises for every heading that declares a supported database, and
    with it the reading of the file; without a section [tablename] at all
    the exception is [NoSectionError]. The call
    [self.config.get("tablename", DEFAULT_TABLENAME)] takes its first
    argument as a section name and its second as an option name. *)
Theorem tablename_lookup_raises section config :
  get_raw self "tablename" DEFAULT_TABLENAME = None ->
  In section (sections self) ->
  declared section <> [] ->
  is_ok (outcome (__process_dbs section config)) = false /\
  is_ok (outcome (load self)) = false /\
  (has_section self "tablename" = false ->
   outcome (__process_dbs section config)
   = Raise (NoSectionError "tablename")).
Proof.
  intros Hraw Hin Hdecl.
  pose proof (get_absent self _ _ Hraw) as Hget.
  destruct (get self "tablename" DEFAULT_TABLENAME) as [t|e] eqn:Ht;
    [discriminate|]. clear Hget.
  assert (Hdbs : forall c, outcome (__process_dbs section c) = Raise e).
  { intros c. unfold Runner.__process_dbs. fold (pieces section).
    rewrite (for_each_process_db_raise _ _ _ _ Ht).
    now rewrite declared_existsb. }
  split; [now rewrite Hdbs|]. split.
  - apply (load_raises section Hin). rewrite process_section_outcome.
    destruct (option_set self section); [now rewrite Hdbs|reflexivity].
  - intros Hno. rewrite Hdbs.
    rewrite get_no_section in Ht; [|exact Hno|discriminate].
    now injection Ht as <-.
Qed.

End Reader.

(** ** The reader on configuration files *)

Section Files.
Import configparser Runner Registry.

#[local] Abbreviation process_config_keys := __process_config_keys.
#[local] Abbreviation process_dbs :=
  (__process_dbs SUPPORTED_DBS DEFAULT_TABLENAME RE_DBNAME_LABEL).
#[local] Abbreviation declared_in :=
  (declared SUPPORTED_DBS RE_DBNAME_LABEL).

Lemma descriptors_in_file_order_witness :
  outcome (load three_sections) = Ok three_sections_dbs /\
  three_sections_dbs
  = flat_map (section_descriptors SUPPORTED_DBS DEFAULT_TABLENAME
                RE_DBNAME_LABEL three_sections) (sections three_sections) /\
  map (fun d => (db_label d, db_name d)) three_sections_dbs
  = flat_map declared_in (sections three_sections).
Proof.
  assert (H : outcome (load three_sections) = Ok three_sections_dbs)
    by (vm_compute; reflexivity).
  split; [exact H|].
  exact (descriptors_in_file_order SUPPORTED_DBS DEFAULT_TABLENAME
           RE_DBNAME_LABEL three_sections three_sections_dbs H).
Defined.

Lemma options_before_declarations_witness :
  (In "foodb" (sections foodb_no_trials) /\ In "trials" REQUIRED /\
   get_raw foodb_no_trials "foodb" "trials" = None) /\
  (exists e,
      process_section SUPPORTED_DBS DEFAULT_TABLENAME RE_DBNAME_LABEL
        foodb_no_trials "foodb" = ([], Raise e)) /\
  is_ok (outcome (load foodb_no_trials)) = false.
Proof.
  assert (H1 : In "foodb" (sections foodb_no_trials)) by (simpl; tauto).
  assert (H2 : In "trials" REQUIRED) by (simpl; tauto).
  assert (H3 : get_raw foodb_no_trials "foodb" "trials" = None)
    by (vm_compute; reflexivity).
  split; [tauto|].
  exact (options_before_declarations SUPPORTED_DBS DEFAULT_TABLENAME
           RE_DBNAME_LABEL foodb_no_trials "foodb" "trials" H1 H2 H3).
Defined.

(** C3 as stated fails: in this file the second section lacks [trials],
    and the reading ends with the [ValueError] of the first section,
    whose [trials] is not a number, not with a [NoOptionError]. *)
Lemma missing_option_other_exception :
  In "postgres" (sections trials_ill_typed) /\ In "trials" REQUIRED /\
  get_raw trials_ill_typed "postgres" "trials" = None /\
  outcome (load trials_ill_typed) = Raise (ValueError "abc") /\
  ~ (exists k s, outcome (load trials_ill_typed) = Raise (NoOptionError k s)).
Proof.
  assert (H : outcome (load trials_ill_typed) = Raise (ValueError "abc"))
    by (vm_compute; reflexivity).
  split; [simpl; tauto|]. split; [simpl; tauto|].
  split; [vm_compute; reflexivity|]. split; [exact H|].
  intros (k & s & Hks). rewrite H in Hks. discriminate Hks.
Qed.

Lemma missing_option_aborts_witness :
  (In "mysql" (sections min_mpl_missing) /\ In "min_mpl" REQUIRED /\
   get_raw min_mpl_missing "mysql" "min_mpl" = None) /\
  is_ok (outcome (load min_mpl_missing)) = false /\
  outcome (load min_mpl_missing) = Raise (NoOptionError "min_mpl" "mysql").
Proof.
  assert (H1 : In "mysql" (sections min_mpl_missing)) by (simpl; tauto).
  assert (H2 : In "min_mpl" REQUIRED) by (simpl; tauto).
  assert (H3 : get_raw min_mpl_missing "mysql" "min_mpl" = None)
    by (vm_compute; reflexivity).
  destruct (missing_option_aborts SUPPORTED_DBS DEFAULT_TABLENAME
              RE_DBNAME_LABEL min_mpl_missing "mysql" "min_mpl" H1 H2 H3)
    as [Hfail Hfirst].
  split; [tauto|]. split; [exact Hfail|].
  apply (Hfirst [] [] [("trials", an_int)] an_int
           [("max_mpl", an_int); ("inc_mpl", an_int);
            ("output", a_callable Py.lower); ("workload", a_str);
            ("output_plots", a_bool)]);
    [reflexivity|reflexivity|intros s []|].
  intros kt [<-|[]]. vm_compute. reflexivity.
Defined.

(** C9 as stated fails: in this file [output_plots] is [maybe], and the
    options of the section end with the [NoOptionError] of [trials],
    which is read first, not with a [ValueError]. *)
Lemma unrecognised_boolean_other_exception :
  get plots_maybe_no_trials "mysql" "output_plots" = Ok "maybe" /\
  recognised "maybe" = false /\
  outcome (process_config_keys plots_maybe_no_trials "mysql")
  = Raise (NoOptionError "trials" "mysql").
Proof. repeat split; vm_compute; reflexivity. Qed.

Lemma unrecognised_boolean_raises_witness :
  (get plots_maybe "mysql" "output_plots" = Ok "maybe" /\
   recognised "maybe" = false) /\
  is_ok (outcome (process_config_keys plots_maybe "mysql")) = false /\
  exists x,
    outcome (process_config_keys plots_maybe "mysql") = Raise (ValueError x).
Proof.
  assert (H1 : get plots_maybe "mysql" "output_plots" = Ok "maybe")
    by (vm_compute; reflexivity).
  assert (H2 : recognised "maybe" = false) by (vm_compute; reflexivity).
  destruct (unrecognised_boolean_raises plots_maybe "mysql" "maybe" H1 H2)
    as [Hfail Hvalue].
  split; [tauto|]. split; [exact Hfail|].
  apply Hvalue. intros k Hk. simpl in Hk.
  repeat (destruct Hk as [<-|Hk]; [vm_compute; reflexivity|]).
  destruct Hk.
Defined.

(** C7 as stated fails: in this file [output] is configured as [CSV%%];
    the parser interpolates the value it returns, the doubled percent
    sign becomes one, and the resolved value is ["csv%"], which is not
    the configured text in lower case. *)
Lemma output_is_interpolated :
  get_raw output_percent "mysql" "output" = Some "CSV%%" /\
  exists config,
    outcome (process_config_keys output_percent "mysql") = Ok config /\
    config !! "output" = Some (VStr "csv%") /\
    config !! "output" <> Some (VStr (Py.lower "CSV%%")).
Proof.
  split; [vm_compute; reflexivity|].
  eexists. split; [vm_compute; reflexivity|].
  split; [vm_compute; reflexivity|].
  vm_compute. discriminate.
Qed.

(** With [output_plots] written [50%] and the six other options fine,
    the parser raises while interpolating the value, before
    [getboolean] sees it. *)
Lemma unrecognised_boolean_not_interpolated :
  get_raw plots_percent "mysql" "output_plots" = Some "50%" /\
  outcome (process_config_keys plots_percent "mysql")
  = Raise (InterpolationSyntaxError "output_plots" "mysql").
Proof. split; vm_compute; reflexivity. Qed.

Lemma output_is_lowercased_witness :
  outcome (process_config_keys single_mysql "mysql") = Ok resolved /\
  get_raw single_mysql "mysql" "output" = Some "CSV" /\
  resolved !! "output" = Some (VStr "csv").
Proof.
  assert (H1 : outcome (process_config_keys single_mysql "mysql")
               = Ok resolved) by (vm_compute; reflexivity).
  assert (H2 : get_raw single_mysql "mysql" "output" = Some "CSV")
    by (vm_compute; reflexivity).
  split; [exact H1|]. split; [exact H2|].
  exact (proj2 (output_is_lowercased single_mysql "mysql" resolved H1)
           "CSV" H2 eq_refl).
Defined.

Lemma tablename_lookup_raises_witness :
  (get_raw single_mysql "tablename" DEFAULT_TABLENAME = None /\
   In "mysql" (sections single_mysql) /\ declared_in "mysql" <> [] /\
   has_section single_mysql "tablename" = false) /\
  is_ok (outcome (process_dbs single_mysql "mysql" resolved)) = false /\
  is_ok (outcome (load single_mysql)) = false /\
  outcome (process_dbs single_mysql "mysql" resolved)
  = Raise (NoSectionError "tablename").
Proof.
  assert (H1 : get_raw single_mysql "tablename" DEFAULT_TABLENAME = None)
    by (vm_compute; reflexivity).
  assert (H2 : In "mysql" (sections single_mysql)) by (simpl; tauto).
  assert (H3 : declared_in "mysql" <> []) by (vm_compute; discriminate).
  assert (H4 : has_section single_mysql "tablename" = false)
    by (vm_compute; reflexivity).
  destruct (tablename_lookup_raises SUPPORTED_DBS DEFAULT_TABLENAME
              RE_DBNAME_LABEL single_mysql "mysql" resolved H1 H2 H3)
    as (Hdbs & Hload & Hsection).
  split; [tauto|]. split; [exact Hdbs|]. split; [exact Hload|].
  exact (Hsection H4).
Defined.

(** C2, what the code does on the heading ["foodb, mysql"]: the piece
    [foodb] is skipped with its diagnostic and the loop goes on to
    [mysql], where the table name lookup raises; the reading returns the
    one descriptor only in a file that also has a section [tablename]
    defining the option named by [DEFAULT_TABLENAME]. *)
Theorem foodb_mysql_raises :
  load foodb_mysql
  = (["Invalid database found: foodb. Only (mysql,postgres) are supported. Skipping..."],
     Raise (NoSectionError "tablename")) /\
  load foodb_mysql_with_table
  = (["Invalid database found: foodb. Only (mysql,postgres) are supported. Skipping...";
      "Invalid database found: tablename. Only (mysql,postgres) are supported. Skipping..."],
     Ok [mkDbSystem "mysql" resolved EmptyString "t1"]).
Proof. split; vm_compute; reflexivity. Qed.

(** C5, what the code does on the spec's example: the options of the
    section resolve, and processing the heading ["mysql(a), postgres"]
    raises at its first declaration, in the table name lookup; the two
    descriptors are returned only in a file that also has a section
    [tablename] defining the option named by [DEFAULT_TABLENAME], and
    then carry that option's value as table name. *)
Theorem round_trip_raises :
  outcome (process_config_keys round_trip "mysql(a), postgres") = Ok resolved
  /\ process_dbs round_trip "mysql(a), postgres" resolved
     = ([], Raise (NoSectionError "tablename"))
  /\ process_dbs round_trip_with_table "mysql(a), postgres" resolved
     = ([], Ok [mkDbSystem "mysql" resolved "a" "t1";
                mkDbSystem "postgres" resolved EmptyString "t1"]).
Proof. repeat split; vm_compute; reflexivity. Qed.

(** C6, what the code does on a file with one section, one supported
    declaration and every required option: the reading raises in the
    table name lookup and returns no list. *)
Theorem valid_file_raises :
  outcome (process_config_keys single_mysql "mysql") = Ok resolved /\
  length (flat_map declared_in (sections single_mysql)) = 1 /\
  load single_mysql = ([], Raise (NoSectionError "tablename")).
Proof. repeat split; vm_compute; reflexivity. Qed.

End Files.

(** * Further properties of the reader *)

(** ** The option set of a section *)

Section Options.
Import configparser Runner.

Variable self : ConfigParser.

Lemma convert_ok value b :
  _convert_to_boolean value = Ok b ->
  recognised value = true /\ b = Py.contains (Py.lower value) TRUTHY.
Proof.
  unfold _convert_to_boolean, recognised, Py.contains, BOOLEAN_STATES, TRUTHY.
  generalize (Py.lower value) as x. intros x. cbn [List.find map existsb fst].
  rewrite !(String.eqb_sym x).
  repeat match goal with
         | |- context [String.eqb ?a x] =>
             destruct (String.eqb a x); cbn [orb];
             [intros [= <-]; split; reflexivity|]
         end.
  discriminate.
Qed.

(** X1. The option set resolved for a section has the seven names of
    [OPTION_KEYS] as its keys and no other, whatever else the section
    holds. *)
Theorem resolved_keys section config :
  outcome (__process_config_keys self section) = Ok config ->
  forall k, is_Some (config !! k) <-> In k REQUIRED.
Proof.
  rewrite process_config_keys_outcome. unfold option_set.
  destruct (getint self section "trials"); [|discriminate].
  destruct (getint self section "min_mpl"); [|discriminate].
  destruct (getint self section "max_mpl"); [|discriminate].
  destruct (getint self section "inc_mpl"); [|discriminate].
  destruct (get self section "output"); [|discriminate].
  destruct (get self section "workload"); [|discriminate].
  destruct (getboolean self section "output_plots"); [|discriminate].
  rewrite !ok_bind. intros [= <-] k. cbv [REQUIRED OPTION_KEYS map fst].
  split.
  - intros [v Hv]. revert Hv.
    repeat (rewrite lookup_insert; case_decide; [subst k; simpl; tauto|]).
    now rewrite lookup_empty.
  - intros Hk. repeat (destruct Hk as [<-|Hk]); [..|destruct Hk];
      repeat (rewrite lookup_insert; case_decide; [eauto|]); congruence.
Qed.

(** X2. The type tests of the loop send each entry of [OPTION_KEYS], as
    the class writes it, to the branch the option needs: the four counts
    to [getint], [output_plots] to [getboolean] although [bool] is a
    subclass of [int], [workload] to [get], [output] to its function. The
    loop over the written entries is therefore the loop over the
    classified ones, and it never prints the warning of the last
    branch. *)
Theorem type_tests_select_branches section :
  map (fun kt => (fst kt, dispatch (snd kt))) OPTION_KEYS_values
  = OPTION_KEYS /\
  process_config_keys_by_type self section
  = __process_config_keys self section /\
  printed (process_config_keys_by_type self section) = [].
Proof.
  assert (H : process_config_keys_by_type self section
              = __process_config_keys self section).
  { unfold process_config_keys_by_type, __process_config_keys.
    unfold OPTION_KEYS_values, OPTION_KEYS. cbn [for_each fst snd].
    reflexivity. }
  split; [reflexivity|]. split; [exact H|].
  rewrite H. now rewrite process_config_keys_eq.
Qed.

(** X3. In the option set resolved for a section, each of [trials],
    [min_mpl], [max_mpl] and [inc_mpl] is the integer that [int()] reads
    in the string the parser returns for it, and [workload] is the string
    the parser returns, unchanged. *)
Theorem resolved_values section config :
  outcome (__process_config_keys self section) = Ok config ->
  (forall k, In k INTEGER_KEYS ->
     exists v n, get self section k = Ok v /\ Py.int v = Some n /\
                 config !! k = Some (VInt n)) /\
  (exists w, get self section "workload" = Ok w /\
             config !! "workload" = Some (VStr w)).
Proof.
  rewrite process_config_keys_outcome. unfold option_set, getint.
  destruct (get self section "trials") as [v1|] eqn:G1; [|discriminate].
  rewrite ok_bind. destruct (Py.int v1) as [n1|] eqn:I1; [|discriminate].
  destruct (get self section "min_mpl") as [v2|] eqn:G2; [|discriminate].
  rewrite !ok_bind. destruct (Py.int v2) as [n2|] eqn:I2; [|discriminate].
  destruct (get self section "max_mpl") as [v3|] eqn:G3; [|discriminate].
  rewrite !ok_bind. destruct (Py.int v3) as [n3|] eqn:I3; [|discriminate].
  destruct (get self section "inc_mpl") as [v4|] eqn:G4; [|discriminate].
  rewrite !ok_bind. destruct (Py.int v4) as [n4|] eqn:I4; [|discriminate].
  destruct (get self section "output"); [|discriminate].
  destruct (get self section "workload") as [w|] eqn:Hw; [|discriminate].
  destruct (getboolean self section "output_plots"); [|discriminate].
  rewrite !ok_bind. intros [= <-]. split.
  - intros k Hk. cbv [INTEGER_KEYS] in Hk.
    repeat (destruct Hk as [<-|Hk]); [..|destruct Hk];
      eexists; eexists; (split; [eassumption|]);
      (split; [eassumption|]);
      repeat (rewrite lookup_insert; case_decide; [congruence|]);
      congruence.
  - exists w. split; [reflexivity|].
    rewrite lookup_insert_ne by discriminate. apply lookup_insert_eq.
Qed.

(** X4. In the option set resolved for a section, [output_plots] is
    [True] when the string the parser returns for it is, whatever its
    case, one of [1], [yes], [true], [on], and [False] when it is one of
    the four other recognised tokens. *)
Theorem resolved_boolean section config :
  outcome (__process_config_keys self section) = Ok config ->
  exists v,
    get self section "output_plots" = Ok v /\ recognised v = true /\
    config !! "output_plots"
    = Some (VBool (Py.contains (Py.lower v) TRUTHY)).
Proof.
  rewrite process_config_keys_outcome. unfold option_set, getboolean.
  destruct (getint self section "trials"); [|discriminate].
  destruct (getint self section "min_mpl"); [|discriminate].
  destruct (getint self section "max_mpl"); [|discriminate].
  destruct (getint self section "inc_mpl"); [|discriminate].
  destruct (get self section "output"); [|discriminate].
  destruct (get self section "workload"); [|discriminate].
  destruct (get self section "output_plots") as [v|]; [|discriminate].
  rewrite !ok_bind.
  destruct (_convert_to_boolean v) as [b|] eqn:Hb; [|discriminate].
  rewrite ok_bind. intros [= <-].
  destruct (convert_ok _ _ Hb) as [Hv ->].
  exists v. split; [reflexivity|]. split; [exact Hv|].
  apply lookup_insert_eq.
Qed.

Lemma process_key_raise section config config' kt e :
  outcome (process_key self section config kt) = Raise e ->
  outcome (process_key self section config' kt) = Raise e.
Proof.
  destruct kt as [k t].
  destruct t; cbn [process_key];
    [destruct (getint self section k)
    |destruct (getboolean self section k)
    |destruct (get self section k)
    |destruct (get self section k)|];
    simpl; congruence.
Qed.

Lemma first_failing_key section kpre kt kpost e :
  OPTION_KEYS = (kpre ++ kt :: kpost)%list ->
  (forall kt', In kt' kpre -> resolves self section kt' = true) ->
  outcome (process_key self section ∅ kt) = Raise e ->
  outcome (__process_config_keys self section) = Raise e.
Proof.
  intros Hkeys Hpre Hraise.
  unfold __process_config_keys. rewrite Hkeys, for_each_app.
  destruct (for_each_keys_ok self section kpre ∅ Hpre) as [c Hc].
  rewrite (outcome_bind_ok _ _ _ Hc). cbn [for_each].
  apply outcome_bind_raise. now apply (process_key_raise section ∅).
Qed.

(** X5. When an option read with [getint] holds a string that [int()]
    does not accept, and the options read before it resolve, resolving
    the options of the section raises [ValueError] for that string; the
    options after it are not read. *)
Theorem ill_typed_integer section kpre k kpost v :
  OPTION_KEYS = (kpre ++ (k, an_int) :: kpost)%list ->
  (forall kt, In kt kpre -> resolves self section kt = true) ->
  get self section k = Ok v -> Py.int v = None ->
  outcome (__process_config_keys self section) = Raise (ValueError v).
Proof.
  intros Hkeys Hpre Hget Hint.
  apply (first_failing_key section kpre (k, an_int) kpost); [assumption..|].
  cbn [process_key]. unfold getint. rewrite Hget, ok_bind, Hint.
  reflexivity.
Qed.

End Options.

(** ** The declarations of a heading *)

Section Strings.

Lemma split_cons sep s : exists p ps, Py.split sep s = p :: ps.
Proof.
  destruct s as [|c s]; simpl; [eauto|].
  destruct (Ascii.eqb c sep); [eauto|].
  destruct (Py.split sep s); eauto.
Qed.

Lemma split_append sep a b :
  Py.split sep (a +:+ String sep b)
  = (Py.split sep a ++ Py.split sep b)%list.
Proof.
  induction a as [|c a IH]; simpl.
  - now rewrite Ascii.eqb_refl.
  - rewrite IH. destruct (Ascii.eqb c sep); [reflexivity|].
    destruct (split_cons sep a) as (p & ps & ->). reflexivity.
Qed.

Lemma lower_char_idempotent c :
  Py.lower_char (Py.lower_char c) = Py.lower_char c.
Proof.
  destruct c as [[] [] [] [] [] [] [] []]; reflexivity.
Qed.

Lemma lower_idempotent s : Py.lower (Py.lower s) = Py.lower s.
Proof.
  induction s as [|c s IH]; simpl; [reflexivity|].
  now rewrite lower_char_idempotent, IH.
Qed.

Lemma filter_partition {A} (f : A -> bool) (l : list A) :
  length (List.filter f l) + length (List.filter (fun x => negb (f x)) l)
  = length l.
Proof.
  induction l as [|x l IH]; simpl; [reflexivity|].
  destruct (f x); simpl; rewrite <- IH; [reflexivity|].
  now rewrite Nat.add_succ_r.
Qed.

End Strings.

Section Declarations.
Import configparser Runner.

Variable SUPPORTED_DBS : list string.
Variable DEFAULT_TABLENAME : string.
Variable RE_DBNAME_LABEL : Pattern.
Variable self : ConfigParser.

#[local] Abbreviation process_db :=
  (process_db SUPPORTED_DBS DEFAULT_TABLENAME RE_DBNAME_LABEL self).
#[local] Abbreviation __process_dbs :=
  (__process_dbs SUPPORTED_DBS DEFAULT_TABLENAME RE_DBNAME_LABEL self).
#[local] Abbreviation supported := (supported SUPPORTED_DBS).
#[local] Abbreviation split_label := (split_label RE_DBNAME_LABEL).
#[local] Abbreviation declared := (declared SUPPORTED_DBS RE_DBNAME_LABEL).
#[local] Abbreviation diagnostics :=
  (diagnostics SUPPORTED_DBS RE_DBNAME_LABEL).
#[local] Abbreviation invalid_database := (invalid_database SUPPORTED_DBS).

Lemma declared_none section db :
  declared section = [] -> In db (pieces section) ->
  supported (snd (split_label db)) = false.
Proof.
  unfold declared. induction (pieces section) as [|p ps IH]; [intros _ []|].
  cbn [map List.filter].
  destruct (supported (snd (split_label p))) eqn:E; [discriminate|].
  intros H [<-|Hin]; [exact E|now apply IH].
Qed.

Lemma for_each_all_unsupported config dbs db_instances :
  (forall db, In db dbs -> supported (snd (split_label db)) = false) ->
  for_each (process_db config) dbs db_instances
  = (map (fun db => invalid_database (snd (split_label db))) dbs,
     Ok db_instances).
Proof.
  induction dbs as [|db dbs IH]; intros Hall; [reflexivity|].
  rewrite for_each_skips_unsupported by (apply Hall; now left).
  rewrite IH by (intros db' H; apply Hall; now right). reflexivity.
Qed.

(** X6. A heading none of whose pieces names a supported database gives
    no descriptor and never raises, whether the table name can be looked
    up or not; one diagnostic is printed for each of its pieces, in
    order. *)
Theorem unsupported_heading section config :
  declared section = [] ->
  __process_dbs section config
  = (map (fun db => invalid_database (snd (split_label db)))
         (pieces section),
     Ok []).
Proof.
  intros H. unfold Runner.__process_dbs. fold (pieces section).
  apply for_each_all_unsupported. intros db. now apply declared_none.
Qed.

(** X7. When the table name lookup succeeds, a heading gives one
    descriptor for each piece that names a supported database, in the
    order of the heading, with the label and bare name of the piece, the
    option set passed in and the table name looked up; and one diagnostic
    for each other piece, in the order of the heading. *)
Theorem heading_with_tablename section config tablename :
  get self "tablename" DEFAULT_TABLENAME = Ok tablename ->
  __process_dbs section config
  = (diagnostics (pieces section),
     Ok (map (descriptor config tablename) (declared section))).
Proof.
  intros Ht. unfold Runner.__process_dbs. fold (pieces section).
  now rewrite (for_each_process_db_ok _ _ _ _ _ _ _ _ Ht).
Qed.

(** X8. When a heading is processed without exception, every piece of it
    is accounted for: the descriptors returned and the diagnostics
    printed are together as many as the pieces. *)
Theorem every_piece_accounted section config l :
  outcome (__process_dbs section config) = Ok l ->
  length l + length (printed (__process_dbs section config))
  = length (pieces section).
Proof.
  destruct (get self "tablename" DEFAULT_TABLENAME) as [t|e] eqn:Ht.
  - unfold Runner.__process_dbs. fold (pieces section).
    rewrite (for_each_process_db_ok _ _ _ _ _ _ _ _ Ht). simpl.
    intros [= <-]. unfold diagnostics. rewrite !length_map.
    rewrite <- (length_map split_label (pieces section)).
    rewrite <- (filter_partition (fun d => supported (snd d))
                  (map split_label (pieces section))).
    f_equal. induction (pieces section) as [|p ps IH]; [reflexivity|].
    simpl. destruct (supported (snd (split_label p))); simpl; now rewrite IH.
  - intros H.
    assert (Hnone : declared section = []).
    { unfold Runner.__process_dbs in H. fold (pieces section) in H.
      rewrite (for_each_process_db_raise _ _ _ _ _ _ _ _ Ht) in H.
      destruct (existsb _ _) eqn:E; [discriminate|].
      now apply existsb_supported_declared. }
    unfold Runner.__process_dbs in *. fold (pieces section) in *.
    rewrite for_each_all_unsupported in *
      by (intros db; now apply declared_none).
    simpl in *. injection H as <-. now rewrite length_map.
Qed.

(** X9. Every descriptor a heading gives names a supported database: its
    name, put in lower case, is in [SUPPORTED_DBS]; the name itself is
    kept as the heading writes it. And every descriptor carries the
    option set passed in. *)
Theorem descriptors_are_supported section config l :
  outcome (__process_dbs section config) = Ok l ->
  Forall (fun d => Py.contains (Py.lower (db_name d)) SUPPORTED_DBS = true /\
                   In (db_label d, db_name d)
                      (map split_label (pieces section)) /\
                   db_config d = config) l.
Proof.
  intros H.
  apply (process_dbs_descriptors _ _ _ _ _ _ _) in H. subst l.
  destruct (get self "tablename" DEFAULT_TABLENAME) as [t|e]; [|constructor].
  apply List.Forall_forall. intros d Hd. apply in_map_iff in Hd.
  destruct Hd as ([lbl bare] & <- & Hin). unfold declared in Hin.
  apply filter_In in Hin. destruct Hin as [Hin Hsup]. simpl in *.
  split; [exact Hsup|]. split; [exact Hin|reflexivity].
Qed.

(** X17. Validation does not look at the case of a name: a name is
    accepted exactly when its lower-case form is. *)
Theorem validation_ignores_case db :
  supported (Py.lower db) = supported db.
Proof. unfold Runner.supported. now rewrite lower_idempotent. Qed.

Lemma for_each_process_db_from config dbs db_instances :
  for_each (process_db config) dbs db_instances
  = (l ← for_each (process_db config) dbs [];
     mret (db_instances ++ l)%list).
Proof.
  revert db_instances. induction dbs as [|db dbs IH]; intros db_instances.
  - cbn [for_each]. rewrite ret_bind. now rewrite app_nil_r.
  - destruct (supported (snd (split_label db))) eqn:E.
    + cbn [for_each].
      rewrite !(process_db_supported _ _ _ _ _ _ _ E).
      destruct (get self "tablename" DEFAULT_TABLENAME) as [t|e];
        [|reflexivity].
      rewrite !ok_bind, !lift_ok_bind. cbn [app].
      rewrite (IH (db_instances ++ _)%list), (IH [_]).
      destruct (for_each (process_db config) dbs []) as [out [l|e]];
        [|reflexivity].
      unfold mbind, io_bind, mret, io_ret. cbn.
      now rewrite !app_nil_r, <- app_assoc.
    + rewrite !(for_each_skips_unsupported _ _ _ _ _ _ _ _ E), IH.
      destruct (for_each (process_db config) dbs []) as [out [l|e]];
        reflexivity.
Qed.

(** X10. A heading made of two headings joined by a comma is processed
    as the first and then the second: the diagnostics are printed in that
    order, the descriptors of the first come before those of the second,
    and an exception in the first leaves the second unprocessed. *)
Theorem heading_of_two_headings first second config :
  __process_dbs (first +:+ "," +:+ second) config
  = (l1 ← __process_dbs first config;
     l2 ← __process_dbs second config;
     mret (l1 ++ l2)%list).
Proof.
  unfold Runner.__process_dbs.
  change (first +:+ "," +:+ second)
    with (first +:+ String ","%char second).
  rewrite split_append, map_app, for_each_app.
  destruct (for_each (process_db config)
              (map Py.strip (Py.split ","%char first)) [])
    as [out1 [l1|e1]]; [|reflexivity].
  unfold mbind at 1 3. unfold io_bind at 1 3.
  now rewrite for_each_process_db_from.
Qed.

End Declarations.

(** ** The exceptions of the parser *)

Section ParserExceptions.
Import configparser.
Variable cp : ConfigParser.

Lemma section_dict_sections section d :
  section_dict cp section = Some d -> In section (sections cp).
Proof.
  unfold sections, section_dict. induction (_sections cp) as [|[n d'] l IH].
  - discriminate.
  - simpl. destruct (String.eqb_spec n section) as [->|Hne].
    + intros _. now left.
    + intros H. right. exact (IH H).
Qed.

Lemma interpolate_raise opt section map fuel rest e :
  _interpolate_some opt section map fuel rest = Raise e ->
  is_interpolation_error e.
Proof.
  revert rest e. induction fuel as [|fuel IH]; intros rest e.
  - intros [= <-]. exact I.
  - cbn [_interpolate_some]. generalize (String.length rest) as n.
    intros n. revert rest e. induction n as [|n IHn]; intros rest e.
    + discriminate.
    + destruct (break_at "%"%char rest) as [pre [|c0 [|c r]]];
        [discriminate|intros [= <-]; exact I|].
      destruct (Ascii.eqb c "%"%char).
      { match goal with
        | |- context [mbind _ ?m] => destruct m as [tl|e'] eqn:E
        end; [discriminate|].
        intros [= <-]. exact (IHn _ _ E). }
      destruct (Ascii.eqb c "("%char); [|intros [= <-]; exact I].
      destruct (KEYCRE_match _) as [[name rest2]|]; [|intros [= <-]; exact I].
      destruct (map !! optionxform name) as [v|]; [|intros [= <-]; exact I].
      destruct (Py.has_char "%"%char v).
      * destruct (_interpolate_some opt section map fuel v) as [v'|e'] eqn:E.
        -- rewrite ok_bind.
           match goal with
           | |- context [mbind _ ?m] => destruct m as [tl|e''] eqn:E'
           end; [discriminate|].
           intros [= <-]. exact (IHn _ _ E').
        -- intros [= <-]. exact (IH _ _ E).
      * rewrite ok_bind.
        match goal with
        | |- context [mbind _ ?m] => destruct m as [tl|e''] eqn:E'
        end; [discriminate|].
        intros [= <-]. exact (IHn _ _ E').
Qed.

(** What [get] can raise. *)
Lemma get_raise section opt e :
  get cp section opt = Raise e ->
  (e = NoSectionError section /\ section_dict cp section = None) \/
  e = NoOptionError (optionxform opt) section \/
  is_interpolation_error e.
Proof.
  unfold get, _unify_values.
  destruct (section_dict cp section) as [d|] eqn:Hd.
  - rewrite ok_bind. destruct (_ !! _) as [value|].
    + intros H. right. right. exact (interpolate_raise _ _ _ _ _ _ H).
    + intros [= <-]. right. now left.
  - destruct (String.eqb section default_section).
    + rewrite ok_bind. destruct (_ !! _) as [value|].
      * intros H. right. right. exact (interpolate_raise _ _ _ _ _ _ H).
      * intros [= <-]. right. now left.
    + intros [= <-]. now left.
Qed.

Lemma get_raise_in_section section opt e x :
  In section (sections cp) ->
  get cp section opt = Raise e -> e <> NoSectionError x.
Proof.
  intros Hin H. destruct (section_dict_In cp _ Hin) as [d Hd].
  destruct (get_raise _ _ _ H) as [[_ Hnone]|[->| Hi]].
  - congruence.
  - discriminate.
  - intros ->. exact Hi.
Qed.

Lemma getint_raise_in_section section opt e x :
  In section (sections cp) ->
  getint cp section opt = Raise e -> e <> NoSectionError x.
Proof.
  intros Hin. unfold getint.
  destruct (get cp section opt) as [v|e'] eqn:E.
  - rewrite ok_bind. destruct (Py.int v); [discriminate|].
    intros [= <-]. discriminate.
  - intros [= <-]. exact (get_raise_in_section _ _ _ _ Hin E).
Qed.

Lemma getboolean_raise_in_section section opt e x :
  In section (sections cp) ->
  getboolean cp section opt = Raise e -> e <> NoSectionError x.
Proof.
  intros Hin. unfold getboolean, _convert_to_boolean.
  destruct (get cp section opt) as [v|e'] eqn:E.
  - rewrite ok_bind. destruct (List.find _ _) as [[? ?]|]; [discriminate|].
    intros [= <-]. discriminate.
  - intros [= <-]. exact (get_raise_in_section _ _ _ _ Hin E).
Qed.

End ParserExceptions.

(** ** The file as a whole *)

Section Whole.
Import configparser Runner.

Variable SUPPORTED_DBS : list string.
Variable DEFAULT_TABLENAME : string.
Variable RE_DBNAME_LABEL : Pattern.
Variable self : ConfigParser.

#[local] Abbreviation __process_dbs :=
  (__process_dbs SUPPORTED_DBS DEFAULT_TABLENAME RE_DBNAME_LABEL self).
#[local] Abbreviation process_section :=
  (process_section SUPPORTED_DBS DEFAULT_TABLENAME RE_DBNAME_LABEL self).
#[local] Abbreviation load :=
  (load SUPPORTED_DBS DEFAULT_TABLENAME RE_DBNAME_LABEL).
#[local] Abbreviation declared := (declared SUPPORTED_DBS RE_DBNAME_LABEL).
#[local] Abbreviation diagnostics :=
  (diagnostics SUPPORTED_DBS RE_DBNAME_LABEL).
#[local] Abbreviation section_descriptors :=
  (section_descriptors SUPPORTED_DBS DEFAULT_TABLENAME RE_DBNAME_LABEL self).
#[local] Abbreviation body :=
  (fun dbs section => new ← process_section section; mret (dbs ++ new)%list).

Lemma pair_ok_bind {A B} (out : list string) (a : A) (f : A -> io B) :
  ((out, Ok a) : io A) ≫= f
  = ((out ++ printed (f a))%list, outcome (f a)).
Proof. unfold mbind, io_bind. destruct (f a); reflexivity. Qed.

Lemma process_section_ok section tablename :
  get self "tablename" DEFAULT_TABLENAME = Ok tablename ->
  is_ok (option_set self section) = true ->
  process_section section
  = (diagnostics (pieces section), Ok (section_descriptors section)).
Proof.
  intros Ht Hset. unfold Runner.process_section, Runner.section_descriptors.
  rewrite process_config_keys_eq, Ht.
  destruct (option_set self section) as [config|e]; [|discriminate].
  rewrite lift_ok_bind. unfold Runner.__process_dbs. fold (pieces section).
  now rewrite (for_each_process_db_ok _ _ _ _ _ _ _ _ Ht).
Qed.

Lemma for_each_sections_closed tablename sections dbs :
  get self "tablename" DEFAULT_TABLENAME = Ok tablename ->
  (forall s, In s sections -> is_ok (option_set self s) = true) ->
  for_each body sections dbs
  = (flat_map (fun s => diagnostics (pieces s)) sections,
     Ok (dbs ++ flat_map section_descriptors sections)%list).
Proof.
  intros Ht. revert dbs.
  induction sections as [|s sections IH]; intros dbs Hall.
  - cbn. now rewrite app_nil_r.
  - cbn [for_each flat_map].
    rewrite (process_section_ok s tablename Ht (Hall s (or_introl eq_refl))).
    rewrite !pair_ok_bind. cbn [mret io_ret printed outcome fst snd].
    rewrite pair_ok_bind.
    rewrite (IH _ (fun s' H => Hall s' (or_intror H))).
    cbn [printed outcome fst snd].
    now rewrite !app_nil_r, <- app_assoc.
Qed.

(** X11. When the table name lookup succeeds and the options of every
    section resolve, reading the file returns, for the sections in file
    order, the descriptors of each section, and prints, in the same
    order, one diagnostic for each piece of a heading that names no
    supported database. *)
Theorem load_closed_form tablename :
  get self "tablename" DEFAULT_TABLENAME = Ok tablename ->
  (forall s, In s (sections self) -> is_ok (option_set self s) = true) ->
  load self
  = (flat_map (fun s => diagnostics (pieces s)) (sections self),
     Ok (flat_map section_descriptors (sections self))).
Proof.
  intros Ht Hall. rewrite load_eq. unfold Runner.__process_sections.
  now rewrite (for_each_sections_closed tablename _ _ Ht Hall).
Qed.

Lemma for_each_sections_prefix pre dbs :
  (forall s, In s pre -> is_ok (outcome (process_section s)) = true) ->
  exists dbs',
    for_each body pre dbs
    = (flat_map (fun s => printed (process_section s)) pre, Ok dbs').
Proof.
  revert dbs. induction pre as [|s pre IH]; intros dbs Hall.
  - exists dbs. reflexivity.
  - cbn [for_each flat_map].
    pose proof (Hall s (or_introl eq_refl)) as Hs.
    destruct (process_section s) as [out [new|e]] eqn:E; [|discriminate].
    destruct (IH (dbs ++ new)%list (fun s' H => Hall s' (or_intror H)))
      as [dbs' Hdbs'].
    exists dbs'. rewrite !pair_ok_bind. cbn [mret io_ret printed outcome fst snd].
    rewrite pair_ok_bind, Hdbs'. cbn [printed outcome fst snd].
    now rewrite app_nil_r.
Qed.

(** X14. Sections are read in file order up to the first that raises:
    its exception is that of the whole reading, what is printed is what
    the sections before it and that section print, and the sections after
    it are not looked at. *)
Theorem first_failing_section pre section post e :
  sections self = (pre ++ section :: post)%list ->
  (forall s, In s pre -> is_ok (outcome (process_section s)) = true) ->
  outcome (process_section section) = Raise e ->
  load self
  = ((flat_map (fun s => printed (process_section s)) pre
      ++ printed (process_section section))%list,
     Raise e).
Proof.
  intros Hsecs Hpre Hraise. rewrite load_eq.
  unfold Runner.__process_sections. rewrite Hsecs, for_each_app.
  destruct (for_each_sections_prefix pre [] Hpre) as [dbs Hdbs].
  rewrite Hdbs. cbn [for_each].
  destruct (process_section section) as [out r]. simpl in Hraise. subst r.
  reflexivity.
Qed.

Lemma for_each_sections_raise sections dbs e :
  outcome (for_each body sections dbs) = Raise e ->
  exists s, In s sections /\ outcome (process_section s) = Raise e.
Proof.
  revert dbs. induction sections as [|s sections IH]; intros dbs.
  - discriminate.
  - cbn [for_each].
    destruct (outcome (process_section s)) as [new|e'] eqn:E.
    + rewrite (outcome_bind_ok _ _ (dbs ++ new)%list)
        by now rewrite (outcome_bind_ok _ _ _ E).
      intros H. destruct (IH _ H) as (s' & Hin & Hs').
      exists s'. split; [now right|exact Hs'].
    + rewrite (outcome_bind_raise _ _ e')
        by now rewrite (outcome_bind_raise _ _ _ E).
      intros [= <-]. exists s. split; [now left|exact E].
Qed.

(** Where an exception of a section comes from. *)
Lemma process_section_raise section e :
  outcome (process_section section) = Raise e ->
  option_set self section = Raise e \/
  (declared section <> [] /\
   get self "tablename" DEFAULT_TABLENAME = Raise e).
Proof.
  rewrite process_section_outcome.
  destruct (option_set self section) as [config|e']; [|intros [= <-]; now left].
  intros H. right.
  destruct (get self "tablename" DEFAULT_TABLENAME) as [t|e'] eqn:Ht.
  - unfold Runner.__process_dbs in H.
    now rewrite (for_each_process_db_ok _ _ _ _ _ _ _ _ Ht) in H.
  - unfold Runner.__process_dbs in H. fold (pieces section) in H.
    rewrite (for_each_process_db_raise _ _ _ _ _ _ _ _ Ht) in H.
    destruct (existsb _ _) eqn:E; [|discriminate].
    injection H as <-. split; [|reflexivity].
    unfold declared. intros Hnone.
    clear Ht. induction (pieces section) as [|p ps IH]; [discriminate|].
    cbn [map List.filter existsb] in *.
    destruct (Runner.supported SUPPORTED_DBS
                (snd (Runner.split_label RE_DBNAME_LABEL p)));
      [discriminate|]. now apply IH.
Qed.

(** X12. An exception of the reading is either the exception of
    resolving the options of one of the sections of the file, or the
    exception of the table name lookup, and then some heading declares a
    supported database. *)
Theorem load_exception_origin e :
  outcome (load self) = Raise e ->
  (exists s, In s (sections self) /\ option_set self s = Raise e) \/
  ((exists s, In s (sections self) /\ declared s <> []) /\
   get self "tablename" DEFAULT_TABLENAME = Raise e).
Proof.
  rewrite load_eq. unfold Runner.__process_sections. intros H.
  destruct (for_each_sections_raise _ _ _ H) as (s & Hin & Hs).
  destruct (process_section_raise _ _ Hs) as [Hset|[Hdecl Hget]].
  - left. eauto.
  - right. split; [eauto|exact Hget].
Qed.

Lemma option_set_raise_in_section section e x :
  In section (sections self) ->
  option_set self section = Raise e -> e <> NoSectionError x.
Proof.
  intros Hin. unfold option_set.
  repeat match goal with
         | |- context [@mbind result _ _ _ _ (getint self section ?key)] =>
             let E := fresh in
             destruct (getint self section key) eqn:E;
             [rewrite ok_bind
             |intros [= <-];
              exact (getint_raise_in_section self _ _ _ _ Hin E)]
         | |- context [@mbind result _ _ _ _ (get self section ?key)] =>
             let E := fresh in
             destruct (get self section key) eqn:E;
             [rewrite ok_bind
             |intros [= <-];
              exact (get_raise_in_section self _ _ _ _ Hin E)]
         | |- context [@mbind result _ _ _ _ (getboolean self section ?key)] =>
             let E := fresh in
             destruct (getboolean self section key) eqn:E;
             [rewrite ok_bind
             |intros [= <-];
              exact (getboolean_raise_in_section self _ _ _ _ Hin E)]
         end.
  discriminate.
Qed.

(** X13. The only [NoSectionError] a reading can end with is the one of
    the table name lookup: it names the section [tablename], the file
    has no such section, and some heading declares a supported
    database. *)
Theorem no_section_error_is_tablename x :
  outcome (load self) = Raise (NoSectionError x) ->
  x = "tablename" /\ has_section self "tablename" = false /\
  exists s, In s (sections self) /\ declared s <> [].
Proof.
  rewrite load_eq. unfold Runner.__process_sections. intros H.
  destruct (for_each_sections_raise _ _ _ H) as (s & Hin & Hs).
  destruct (process_section_raise _ _ Hs) as [Hset|[Hdecl Hget]].
  - now destruct (option_set_raise_in_section _ _ x Hin Hset).
  - destruct (get_raise self _ _ _ Hget) as [[[= ->] Hnone]|[Hopt|Hi]];
      [|discriminate|destruct Hi].
    split; [reflexivity|]. split; [|eauto].
    unfold has_section. rewrite Hnone. apply bool_decide_eq_false.
    now intros [? ?].
Qed.

Lemma load_ok_sections dbs s :
  outcome (load self) = Ok dbs -> In s (sections self) ->
  is_ok (outcome (process_section s)) = true.
Proof.
  intros H Hin.
  destruct (is_ok (outcome (process_section s))) eqn:E; [reflexivity|].
  pose proof (load_raises SUPPORTED_DBS DEFAULT_TABLENAME RE_DBNAME_LABEL
                self s Hin E) as Hfalse.
  now rewrite H in Hfalse.
Qed.

Lemma load_descriptors dbs :
  outcome (load self) = Ok dbs ->
  dbs = flat_map section_descriptors (sections self).
Proof.
  rewrite load_eq. unfold Runner.__process_sections. intros H.
  now rewrite (for_each_sections_descriptors _ _ _ _ _ _ _ H).
Qed.

(** X15. A reading that returns at least one descriptor was made on a
    file that has a section named [tablename], itself read as a section
    with the seven options; and every descriptor returned, of whatever
    section, carries the same table name: what the parser returns for
    the option named by [DEFAULT_TABLENAME] in that section. *)
Theorem one_table_name dbs :
  outcome (load self) = Ok dbs -> dbs <> [] ->
  In "tablename" (sections self) /\
  is_ok (option_set self "tablename") = true /\
  exists tablename,
    get self "tablename" DEFAULT_TABLENAME = Ok tablename /\
    Forall (fun d => db_tablename d = tablename) dbs.
Proof.
  intros H Hne. pose proof (load_descriptors _ H) as Hdbs.
  destruct (get self "tablename" DEFAULT_TABLENAME) as [t|e] eqn:Ht.
  - assert (Hin : In "tablename" (sections self)).
    { unfold get, _unify_values in Ht.
      destruct (section_dict self "tablename") as [d|] eqn:Hd;
        [exact (section_dict_sections self _ _ Hd)|discriminate]. }
    split; [exact Hin|]. split.
    + pose proof (load_ok_sections _ _ H Hin) as Hok.
      rewrite process_section_outcome in Hok.
      now destruct (option_set self "tablename").
    + exists t. split; [reflexivity|]. subst dbs.
      apply List.Forall_forall. intros d Hd. apply in_flat_map in Hd.
      destruct Hd as (s & _ & Hd). unfold Runner.section_descriptors in Hd.
      rewrite Ht in Hd. destruct (option_set self s); [|destruct Hd].
      apply in_map_iff in Hd. destruct Hd as (decl & <- & _). reflexivity.
  - destruct Hne. subst dbs. clear H.
    induction (sections self) as [|s l IH]; [reflexivity|].
    cbn [flat_map]. rewrite IH. unfold Runner.section_descriptors.
    rewrite Ht. now destruct (option_set self s).
Qed.

(** X16. Every descriptor a reading returns comes from a section of the
    file: it carries the option set resolved for that section, and its
    label and name are those of a declaration of that section's heading
    that names a supported database. *)
Theorem descriptor_origin dbs :
  outcome (load self) = Ok dbs ->
  Forall (fun d => exists s,
              In s (sections self) /\
              option_set self s = Ok (db_config d) /\
              In (db_label d, db_name d) (declared s)) dbs.
Proof.
  intros H. rewrite (load_descriptors _ H).
  apply List.Forall_forall. intros d Hd. apply in_flat_map in Hd.
  destruct Hd as (s & Hin & Hd). exists s. split; [exact Hin|].
  unfold Runner.section_descriptors in Hd.
  destruct (option_set self s) as [config|]; [|destruct Hd].
  destruct (get self "tablename" DEFAULT_TABLENAME); [|destruct Hd].
  apply in_map_iff in Hd. destruct Hd as ([lbl bare] & <- & Hdecl).
  split; [reflexivity|exact Hdecl].
Qed.

(** X18. In a reading that returns at least one descriptor, the section
    [tablename] is itself taken for a heading: unless [tablename] names a
    supported database, the diagnostic for an invalid database named
    [tablename] is among the lines printed. *)
Theorem tablename_section_is_diagnosed dbs :
  outcome (load self) = Ok dbs -> dbs <> [] ->
  Runner.supported SUPPORTED_DBS
    (snd (Runner.split_label RE_DBNAME_LABEL "tablename")) = false ->
  In (invalid_database SUPPORTED_DBS
        (snd (Runner.split_label RE_DBNAME_LABEL "tablename")))
     (printed (load self)).
Proof.
  intros H Hne Hunsupported.
  pose proof (load_descriptors _ H) as Hdbs.
  destruct (get self "tablename" DEFAULT_TABLENAME) as [t|e] eqn:Ht.
  - assert (Hin : In "tablename" (sections self)).
    { unfold get, _unify_values in Ht.
      destruct (section_dict self "tablename") as [d|] eqn:Hd;
        [exact (section_dict_sections self _ _ Hd)|discriminate]. }
    assert (Hall : forall s, In s (sections self) ->
                             is_ok (option_set self s) = true).
    { intros s Hs. pose proof (load_ok_sections _ _ H Hs) as Hok.
      rewrite process_section_outcome in Hok.
      now destruct (option_set self s). }
    rewrite load_eq. unfold Runner.__process_sections.
    rewrite (for_each_sections_closed t _ _ Ht Hall). cbn [printed fst].
    apply in_flat_map. exists "tablename". split; [exact Hin|].
    change (pieces "tablename") with ["tablename"].
    unfold Runner.diagnostics. cbn [List.filter].
    rewrite Hunsupported. now left.
  - destruct Hne. subst dbs. clear H.
    induction (sections self) as [|s l IH]; [reflexivity|].
    cbn [flat_map]. rewrite IH. unfold Runner.section_descriptors.
    rewrite Ht. now destruct (option_set self s).
Qed.

(** X19. When the file has a section [tablename] without the option named
    by [DEFAULT_TABLENAME], in the section and in [DEFAULT], a heading
    that declares a supported database raises [NoOptionError] for the
    section [tablename] and the name of the constant in lower case. *)
Theorem tablename_option_missing section config :
  In "tablename" (sections self) ->
  get_raw self "tablename" DEFAULT_TABLENAME = None ->
  declared section <> [] ->
  outcome (__process_dbs section config)
  = Raise (NoOptionError (Py.lower DEFAULT_TABLENAME) "tablename").
Proof.
  intros Hin Hraw Hdecl.
  pose proof (get_missing self _ _ Hin Hraw) as Hget.
  unfold Runner.__process_dbs. fold (pieces section).
  rewrite (for_each_process_db_raise _ _ _ _ _ _ _ _ Hget).
  now rewrite declared_existsb.
Qed.

End Whole.

(** ** Further runs on configuration files *)

Section MoreFiles.
Import configparser Runner Registry.

#[local] Abbreviation process_config_keys := __process_config_keys.
#[local] Abbreviation process_dbs :=
  (__process_dbs SUPPORTED_DBS DEFAULT_TABLENAME RE_DBNAME_LABEL).
#[local] Abbreviation process_section :=
  (process_section SUPPORTED_DBS DEFAULT_TABLENAME RE_DBNAME_LABEL).
#[local] Abbreviation declared_in :=
  (declared SUPPORTED_DBS RE_DBNAME_LABEL).
#[local] Abbreviation split_label := (Runner.split_label RE_DBNAME_LABEL).
#[local] Abbreviation section_descriptors :=
  (Runner.section_descriptors SUPPORTED_DBS DEFAULT_TABLENAME RE_DBNAME_LABEL).

Lemma resolved_keys_witness :
  outcome (process_config_keys single_mysql "mysql") = Ok resolved /\
  forall k, is_Some (resolved !! k) <-> In k REQUIRED.
Proof.
  assert (H : outcome (process_config_keys single_mysql "mysql")
              = Ok resolved) by (vm_compute; reflexivity).
  split; [exact H|]. exact (resolved_keys single_mysql "mysql" resolved H).
Defined.

Lemma resolved_values_witness :
  outcome (process_config_keys single_mysql "mysql") = Ok resolved /\
  (forall k, In k INTEGER_KEYS ->
     exists v n, get single_mysql "mysql" k = Ok v /\ Py.int v = Some n /\
                 resolved !! k = Some (VInt n)) /\
  (exists w, get single_mysql "mysql" "workload" = Ok w /\
             resolved !! "workload" = Some (VStr w)).
Proof.
  assert (H : outcome (process_config_keys single_mysql "mysql")
              = Ok resolved) by (vm_compute; reflexivity).
  split; [exact H|]. exact (resolved_values single_mysql "mysql" resolved H).
Defined.

Lemma resolved_boolean_witness :
  outcome (process_config_keys plots_yes "mysql") = Ok resolved /\
  exists v,
    get plots_yes "mysql" "output_plots" = Ok v /\ recognised v = true /\
    resolved !! "output_plots"
    = Some (VBool (Py.contains (Py.lower v) TRUTHY)).
Proof.
  assert (H : outcome (process_config_keys plots_yes "mysql") = Ok resolved)
    by (vm_compute; reflexivity).
  split; [exact H|]. exact (resolved_boolean plots_yes "mysql" resolved H).
Defined.

Lemma ill_typed_integer_witness :
  (get min_mpl_ill_typed "mysql" "min_mpl" = Ok "1.5" /\
   Py.int "1.5" = None) /\
  outcome (process_config_keys min_mpl_ill_typed "mysql")
  = Raise (ValueError "1.5").
Proof.
  assert (H1 : get min_mpl_ill_typed "mysql" "min_mpl" = Ok "1.5")
    by (vm_compute; reflexivity).
  assert (H2 : Py.int "1.5" = None) by reflexivity.
  split; [tauto|].
  apply (ill_typed_integer min_mpl_ill_typed "mysql"
           [("trials", an_int)] "min_mpl"
           [("max_mpl", an_int); ("inc_mpl", an_int);
            ("output", a_callable Py.lower); ("workload", a_str);
            ("output_plots", a_bool)] "1.5");
    [reflexivity| |exact H1|exact H2].
  intros kt [<-|[]]. vm_compute. reflexivity.
Defined.

Lemma unsupported_heading_witness :
  declared_in "foodb, oracle" = [] /\
  process_dbs single_mysql "foodb, oracle" resolved
  = (map (fun db => invalid_database SUPPORTED_DBS (snd (split_label db)))
         (pieces "foodb, oracle"),
     Ok []).
Proof.
  assert (H : declared_in "foodb, oracle" = []) by (vm_compute; reflexivity).
  split; [exact H|].
  exact (unsupported_heading SUPPORTED_DBS DEFAULT_TABLENAME RE_DBNAME_LABEL
           single_mysql "foodb, oracle" resolved H).
Defined.

Lemma heading_with_tablename_witness :
  get round_trip_with_table "tablename" DEFAULT_TABLENAME = Ok "t1" /\
  process_dbs round_trip_with_table "mysql(a), foodb" resolved
  = (diagnostics SUPPORTED_DBS RE_DBNAME_LABEL (pieces "mysql(a), foodb"),
     Ok (map (descriptor resolved "t1") (declared_in "mysql(a), foodb"))).
Proof.
  assert (H : get round_trip_with_table "tablename" DEFAULT_TABLENAME
              = Ok "t1") by (vm_compute; reflexivity).
  split; [exact H|].
  exact (heading_with_tablename SUPPORTED_DBS DEFAULT_TABLENAME
           RE_DBNAME_LABEL round_trip_with_table "mysql(a), foodb" resolved
           "t1" H).
Defined.

Lemma every_piece_accounted_witness :
  outcome (process_dbs round_trip_with_table "foodb, mysql" resolved)
  = Ok [mkDbSystem "mysql" resolved EmptyString "t1"] /\
  length [mkDbSystem "mysql" resolved EmptyString "t1"]
  + length (printed (process_dbs round_trip_with_table "foodb, mysql"
                       resolved))
  = length (pieces "foodb, mysql").
Proof.
  assert (H : outcome (process_dbs round_trip_with_table "foodb, mysql"
                         resolved)
              = Ok [mkDbSystem "mysql" resolved EmptyString "t1"])
    by (vm_compute; reflexivity).
  split; [exact H|].
  exact (every_piece_accounted SUPPORTED_DBS DEFAULT_TABLENAME
           RE_DBNAME_LABEL round_trip_with_table "foodb, mysql" resolved
           _ H).
Defined.

Lemma descriptors_are_supported_witness :
  outcome (process_dbs round_trip_with_table "foodb, MySQL(b)" resolved)
  = Ok [mkDbSystem "MySQL" resolved "b" "t1"] /\
  Forall (fun d => Py.contains (Py.lower (db_name d)) SUPPORTED_DBS = true /\
                   In (db_label d, db_name d)
                      (map split_label (pieces "foodb, MySQL(b)")) /\
                   db_config d = resolved)
         [mkDbSystem "MySQL" resolved "b" "t1"].
Proof.
  assert (H : outcome (process_dbs round_trip_with_table "foodb, MySQL(b)"
                         resolved)
              = Ok [mkDbSystem "MySQL" resolved "b" "t1"])
    by (vm_compute; reflexivity).
  split; [exact H|].
  exact (descriptors_are_supported SUPPORTED_DBS DEFAULT_TABLENAME
           RE_DBNAME_LABEL round_trip_with_table "foodb, MySQL(b)" resolved
           _ H).
Defined.

Lemma three_sections_resolve s :
  In s (sections three_sections) ->
  is_ok (option_set three_sections s) = true.
Proof.
  intros [<-|[<-|[<-|[]]]]; vm_compute; reflexivity.
Defined.

Lemma load_closed_form_witness :
  get three_sections "tablename" DEFAULT_TABLENAME = Ok "t1" /\
  load three_sections
  = (flat_map (fun s => diagnostics SUPPORTED_DBS RE_DBNAME_LABEL (pieces s))
              (sections three_sections),
     Ok (flat_map (section_descriptors three_sections)
                  (sections three_sections))).
Proof.
  assert (H : get three_sections "tablename" DEFAULT_TABLENAME = Ok "t1")
    by (vm_compute; reflexivity).
  split; [exact H|].
  exact (load_closed_form SUPPORTED_DBS DEFAULT_TABLENAME RE_DBNAME_LABEL
           three_sections "t1" H three_sections_resolve).
Defined.

Lemma load_exception_origin_witness :
  outcome (load min_mpl_missing) = Raise (NoOptionError "min_mpl" "mysql") /\
  ((exists s, In s (sections min_mpl_missing) /\
              option_set min_mpl_missing s
              = Raise (NoOptionError "min_mpl" "mysql")) \/
   ((exists s, In s (sections min_mpl_missing) /\ declared_in s <> []) /\
    get min_mpl_missing "tablename" DEFAULT_TABLENAME
    = Raise (NoOptionError "min_mpl" "mysql"))).
Proof.
  assert (H : outcome (load min_mpl_missing)
              = Raise (NoOptionError "min_mpl" "mysql"))
    by (vm_compute; reflexivity).
  split; [exact H|].
  exact (load_exception_origin SUPPORTED_DBS DEFAULT_TABLENAME
           RE_DBNAME_LABEL min_mpl_missing _ H).
Defined.

Lemma no_section_error_is_tablename_witness :
  outcome (load single_mysql) = Raise (NoSectionError "tablename") /\
  "tablename" = "tablename" /\
  has_section single_mysql "tablename" = false /\
  exists s, In s (sections single_mysql) /\ declared_in s <> [].
Proof.
  assert (H : outcome (load single_mysql)
              = Raise (NoSectionError "tablename"))
    by (vm_compute; reflexivity).
  split; [exact H|].
  exact (no_section_error_is_tablename SUPPORTED_DBS DEFAULT_TABLENAME
           RE_DBNAME_LABEL single_mysql _ H).
Defined.

Lemma first_failing_section_witness :
  (sections second_fails = (["foodb"] ++ "mysql" :: ["postgres"])%list /\
   outcome (process_section second_fails "mysql")
   = Raise (NoOptionError "trials" "mysql")) /\
  load second_fails
  = ((flat_map (fun s => printed (process_section second_fails s)) ["foodb"]
      ++ printed (process_section second_fails "mysql"))%list,
     Raise (NoOptionError "trials" "mysql")).
Proof.
  assert (H1 : sections second_fails
               = (["foodb"] ++ "mysql" :: ["postgres"])%list)
    by reflexivity.
  assert (H2 : outcome (process_section second_fails "mysql")
               = Raise (NoOptionError "trials" "mysql"))
    by (vm_compute; reflexivity).
  split; [tauto|].
  apply (first_failing_section SUPPORTED_DBS DEFAULT_TABLENAME
           RE_DBNAME_LABEL second_fails ["foodb"] "mysql" ["postgres"] _
           H1); [|exact H2].
  intros s [<-|[]]. vm_compute. reflexivity.
Defined.

Lemma one_table_name_witness :
  (outcome (load three_sections) = Ok three_sections_dbs /\
   three_sections_dbs <> []) /\
  In "tablename" (sections three_sections) /\
  is_ok (option_set three_sections "tablename") = true /\
  exists tablename,
    get three_sections "tablename" DEFAULT_TABLENAME = Ok tablename /\
    Forall (fun d => db_tablename d = tablename) three_sections_dbs.
Proof.
  assert (H1 : outcome (load three_sections) = Ok three_sections_dbs)
    by (vm_compute; reflexivity).
  assert (H2 : three_sections_dbs <> []) by discriminate.
  split; [tauto|].
  exact (one_table_name SUPPORTED_DBS DEFAULT_TABLENAME RE_DBNAME_LABEL
           three_sections three_sections_dbs H1 H2).
Defined.

Lemma descriptor_origin_witness :
  outcome (load three_sections) = Ok three_sections_dbs /\
  Forall (fun d => exists s,
              In s (sections three_sections) /\
              option_set three_sections s = Ok (db_config d) /\
              In (db_label d, db_name d) (declared_in s))
         three_sections_dbs.
Proof.
  assert (H : outcome (load three_sections) = Ok three_sections_dbs)
    by (vm_compute; reflexivity).
  split; [exact H|].
  exact (descriptor_origin SUPPORTED_DBS DEFAULT_TABLENAME RE_DBNAME_LABEL
           three_sections three_sections_dbs H).
Defined.

Lemma tablename_section_is_diagnosed_witness :
  (outcome (load three_sections) = Ok three_sections_dbs /\
   three_sections_dbs <> [] /\
   supported SUPPORTED_DBS (snd (split_label "tablename")) = false) /\
  In (invalid_database SUPPORTED_DBS (snd (split_label "tablename")))
     (printed (load three_sections)).
Proof.
  assert (H1 : outcome (load three_sections) = Ok three_sections_dbs)
    by (vm_compute; reflexivity).
  assert (H2 : three_sections_dbs <> []) by discriminate.
  assert (H3 : supported SUPPORTED_DBS (snd (split_label "tablename"))
               = false) by reflexivity.
  split; [tauto|].
  exact (tablename_section_is_diagnosed SUPPORTED_DBS DEFAULT_TABLENAME
           RE_DBNAME_LABEL three_sections three_sections_dbs H1 H2 H3).
Defined.

Lemma tablename_option_missing_witness :
  (In "tablename" (sections tablename_without_option) /\
   get_raw tablename_without_option "tablename" DEFAULT_TABLENAME = None /\
   declared_in "mysql" <> []) /\
  outcome (process_dbs tablename_without_option "mysql" resolved)
  = Raise (NoOptionError (Py.lower DEFAULT_TABLENAME) "tablename").
Proof.
  assert (H1 : In "tablename" (sections tablename_without_option))
    by (simpl; tauto).
  assert (H2 : get_raw tablename_without_option "tablename"
                 DEFAULT_TABLENAME = None) by (vm_compute; reflexivity).
  assert (H3 : declared_in "mysql" <> []) by (vm_compute; discriminate).
  split; [tauto|].
  exact (tablename_option_missing SUPPORTED_DBS DEFAULT_TABLENAME
           RE_DBNAME_LABEL tablename_without_option "mysql" resolved
           H1 H2 H3).
Defined.

End MoreFiles.
